(** * ADIN1300 PHY board fixup (drivers/net/ethernet/freescale/adin_fixup.c)

    A shallow embedding of the fixup handler that programs the RGMII
    configuration register and the 125 MHz clock-output bit of an Analog
    Devices ADIN1300 PHY, and the properties the driver documentation states
    about it.

    The handler runs inside the kernel's PHY layer.  Everything it calls but
    does not define (the interface-mode enumeration and its name table, the
    MDIO accessors, the device-tree property readers, [strcasecmp]) is kept
    abstract in the class [Host]; the theorems hold for every host.  One
    concrete host, [imx_host], is given at the end of the definitions to run
    the handler on explicit inputs. *)

From Stdlib Require Import ZArith List String Ascii Bool Lia.
Import ListNotations.

Local Open Scope string_scope.
Local Open Scope list_scope.
Local Open Scope Z_scope.

(** ** C integer types *)

(** Conversion to [u16]: reduction modulo 2^16. *)
Definition to_u16 (x : Z) : Z := x mod 2 ^ 16.

(** Conversion to [int] (32 bits, two's complement wrap-around). *)
Definition to_int (x : Z) : Z := (x + 2 ^ 31) mod 2 ^ 32 - 2 ^ 31.

(** [BIT(n)] of linux/bits.h. *)
Definition BIT (n : Z) : Z := Z.shiftl 1 n.

(** [reg |= mask] and [reg &= ~mask] on an [int] variable.  The operation is
    carried out on the two's complement representation and the result is
    stored back into the [int]. *)
Definition int_or (reg mask : Z) : Z := to_int (Z.lor reg mask).
Definition int_and_not (reg mask : Z) : Z := to_int (Z.land reg (Z.lnot mask)).

(** ** Register map *)

Definition ADIN1300_MII_EXT_REG_PTR : Z := 0x0010.
Definition ADIN1300_MII_EXT_REG_DATA : Z := 0x0011.

Definition ADIN1300_GE_CLK_CFG : Z := 0xff1f.
Definition ADIN1300_GE_CLK_RCVR_125_EN : Z := BIT 5.

Definition ADIN1300_GE_RGMII_CFG_REG : Z := 0xff23.
Definition ADIN1300_GE_RGMII_RXID_EN : Z := BIT 2.
Definition ADIN1300_GE_RGMII_TXID_EN : Z := BIT 1.
Definition ADIN1300_GE_RGMII_EN : Z := BIT 0.

(** ** The host interface *)

(** What the file takes from the kernel headers.  [of_property_read_string]
    returns the status together with the string it stores through its
    out-parameter (meaningful only when the status is not negative);
    [mdiobus_read] and [mdiobus_write] return the [int] result of the bus
    access together with the new state of the bus. *)
Class Host : Type := {
  (* linux/phy.h: phy_interface_t and phy_modes() *)
  PHY_INTERFACE_MODE_RGMII : Z;
  PHY_INTERFACE_MODE_RGMII_ID : Z;
  PHY_INTERFACE_MODE_RGMII_RXID : Z;
  PHY_INTERFACE_MODE_RGMII_TXID : Z;
  PHY_INTERFACE_MODE_MAX : Z;
  phy_modes : Z -> string;
  (* errno *)
  ENODEV : Z;
  (* linux/string.h *)
  strcasecmp : string -> string -> Z;
  (* linux/of.h *)
  device_node : Type;
  of_property_read_string : device_node -> string -> Z * string;
  of_property_read_bool : device_node -> string -> bool;
  (* linux/phy.h, linux/mdio.h *)
  mii_bus : Type;
  mdiobus_read : mii_bus -> Z -> Z * mii_bus;
  mdiobus_write : mii_bus -> Z -> Z -> Z * mii_bus
}.

(** The order of the four RGMII enumerators in [phy_interface_t], on which the
    range test [adin_phy_interface_is_rgmii] relies. *)
Class PhyEnumOrder (H : Host) : Prop := {
  rgmii_id_succ : PHY_INTERFACE_MODE_RGMII_ID = PHY_INTERFACE_MODE_RGMII + 1;
  rgmii_rxid_succ : PHY_INTERFACE_MODE_RGMII_RXID = PHY_INTERFACE_MODE_RGMII + 2;
  rgmii_txid_succ : PHY_INTERFACE_MODE_RGMII_TXID = PHY_INTERFACE_MODE_RGMII + 3
}.

(** ** Observable events *)

(** What a call does to the outside world, in program order: MDIO reads and
    writes with the value the bus returned, and kernel log lines. *)
Inductive event : Type :=
| EvRead (regnum : Z) (ret : Z)
| EvWrite (regnum val : Z) (ret : Z)
| EvPrintk (msg : string).

Definition is_printk (e : event) : bool :=
  match e with EvPrintk _ => true | _ => false end.

Definition nl : string := String (ascii_of_nat 10) EmptyString.

Section Driver.

Context {H : Host}.

(** [struct phy_device], reduced to the fields the file uses. *)
Record phy_device : Type := mk_phy_device {
  interface : Z;
  of_node : device_node;
  bus : mii_bus
}.

Definition set_interface (m : Z) (d : phy_device) : phy_device :=
  mk_phy_device m (of_node d) (bus d).

Definition set_bus (b : mii_bus) (d : phy_device) : phy_device :=
  mk_phy_device (interface d) (of_node d) b.

(** ** A state and output monad: the device is threaded, events are appended *)

Definition M (A : Type) : Type := phy_device -> A * phy_device * list event.

Definition ret {A : Type} (a : A) : M A := fun d => (a, d, []).

Definition bind {A B : Type} (m : M A) (k : A -> M B) : M B :=
  fun d =>
    let '(a, d1, e1) := m d in
    let '(b, d2, e2) := k a d1 in
    (b, d2, e1 ++ e2).

Definition get : M phy_device := fun d => (d, d, []).

Definition put_interface (m : Z) : M unit := fun d => (tt, set_interface m d, []).

Definition printk (msg : string) : M unit := fun d => (tt, d, [EvPrintk msg]).

Notation "x <- m ;; k" := (bind m (fun x => k))
  (at level 61, m at next level, right associativity).
Notation "m ;;; k" := (bind m (fun _ => k))
  (at level 61, right associativity).

(** [phy_read(phydev, regnum)] *)
Definition phy_read (regnum : Z) : M Z := fun d =>
  let '(r, b) := mdiobus_read (bus d) regnum in
  (r, set_bus b d, [EvRead regnum r]).

(** [phy_write(phydev, regnum, val)], [val] being a [u16] parameter. *)
Definition phy_write (regnum val : Z) : M Z := fun d =>
  let v := to_u16 val in
  let '(r, b) := mdiobus_write (bus d) regnum v in
  (r, set_bus b d, [EvWrite regnum v r]).

(** ** The driver *)

Definition adin_phy_interface_is_rgmii (d : phy_device) : bool :=
  (PHY_INTERFACE_MODE_RGMII <=? interface d) &&
  (interface d <=? PHY_INTERFACE_MODE_RGMII_TXID).

(** The result of [phy_read] is stored in a [u16] local and returned as
    [u16]. *)
Definition adin_ext_read (regnum : Z) : M Z :=
  phy_write ADIN1300_MII_EXT_REG_PTR regnum ;;;
  val <- phy_read ADIN1300_MII_EXT_REG_DATA ;;
  ret (to_u16 val).

Definition adin_ext_write (regnum val : Z) : M Z :=
  let val := to_u16 val in
  phy_write ADIN1300_MII_EXT_REG_PTR regnum ;;;
  phy_write ADIN1300_MII_EXT_REG_DATA val.

(** The loop [for (i = 0; i < PHY_INTERFACE_MODE_MAX; i++)] of
    [adin_get_phy_mode_override], entered at [i] with [n] iterations left. *)
Fixpoint phy_mode_scan (s : string) (i : Z) (n : nat) : option Z :=
  match n with
  | O => None
  | S n' =>
      if strcasecmp s (phy_modes i) =? 0 then Some i
      else phy_mode_scan s (i + 1) n'
  end.

Definition prop_phy_mode_override : string := "adi,phy-mode-override".

Definition override_diagnostic (s : string) : string :=
  ("adin_get_phy_mode_override: Error " ++ prop_phy_mode_override ++
   " = '" ++ s ++ "' is not valid" ++ nl)%string.

Definition adin_get_phy_mode_override : M Z :=
  d <- get ;;
  let '(err, phy_mode_override) :=
    of_property_read_string (of_node d) prop_phy_mode_override in
  if err <? 0 then ret err
  else
    match phy_mode_scan phy_mode_override 0 (Z.to_nat PHY_INTERFACE_MODE_MAX) with
    | Some i => ret i
    | None =>
        printk (override_diagnostic phy_mode_override) ;;;
        ret (- ENODEV)
    end.

Definition adin_config_rgmii_mode : M Z :=
  phy_mode_override <- adin_get_phy_mode_override ;;
  (if 0 <=? phy_mode_override then put_interface phy_mode_override
   else ret tt) ;;;
  reg <- adin_ext_read ADIN1300_GE_RGMII_CFG_REG ;;
  if reg <? 0 then ret reg
  else
    d <- get ;;
    if negb (adin_phy_interface_is_rgmii d) then
      let reg := int_and_not reg ADIN1300_GE_RGMII_EN in
      adin_ext_write ADIN1300_GE_RGMII_CFG_REG reg
    else
      let reg := int_or reg ADIN1300_GE_RGMII_EN in
      let reg :=
        if (interface d =? PHY_INTERFACE_MODE_RGMII_ID) ||
           (interface d =? PHY_INTERFACE_MODE_RGMII_RXID)
        then int_or reg ADIN1300_GE_RGMII_RXID_EN
        else int_and_not reg ADIN1300_GE_RGMII_RXID_EN in
      let reg :=
        if (interface d =? PHY_INTERFACE_MODE_RGMII_ID) ||
           (interface d =? PHY_INTERFACE_MODE_RGMII_TXID)
        then int_or reg ADIN1300_GE_RGMII_TXID_EN
        else int_and_not reg ADIN1300_GE_RGMII_TXID_EN in
      adin_ext_write ADIN1300_GE_RGMII_CFG_REG reg.

Definition prop_clk_rcvr_125_en : string := "adi,clk_rcvr_125_en".

Definition adin_set_clock_config : M Z :=
  d <- get ;;
  if of_property_read_bool (of_node d) prop_clk_rcvr_125_en then
    printk ("adin_set_clock_config: Enabling 125 MHz clock out" ++ nl)%string ;;;
    reg <- adin_ext_read ADIN1300_GE_CLK_CFG ;;
    let reg := int_or reg ADIN1300_GE_CLK_RCVR_125_EN in
    reg <- adin_ext_write ADIN1300_GE_CLK_CFG reg ;;
    ret reg
  else ret 0.

Definition adin1300_phy_fixup : M Z :=
  rc <- adin_config_rgmii_mode ;;
  if rc <? 0 then ret rc
  else
    rc <- adin_set_clock_config ;;
    if rc <? 0 then ret rc
    else
      d <- get ;;
      printk ("adin1300_phy_fixup: PHY is using mode '" ++
              phy_modes (interface d) ++ "'" ++ nl)%string ;;;
      ret 0.

End Driver.

Arguments phy_device : clear implicits.
Arguments M : clear implicits.

(** Components of the outcome of a run. *)
Definition result {H : Host} {A : Type} (x : A * phy_device H * list event) : A :=
  fst (fst x).
Definition device {H : Host} {A : Type} (x : A * phy_device H * list event)
  : phy_device H := snd (fst x).
Definition events {H : Host} {A : Type} (x : A * phy_device H * list event)
  : list event := snd x.

(** ** What the documentation calls the four RGMII variants *)

Definition is_rgmii_variant {H : Host} (m : Z) : Prop :=
  m = PHY_INTERFACE_MODE_RGMII \/ m = PHY_INTERFACE_MODE_RGMII_ID \/
  m = PHY_INTERFACE_MODE_RGMII_RXID \/ m = PHY_INTERFACE_MODE_RGMII_TXID.

(** The word [adin_config_rgmii_mode] hands to [adin_ext_write] for the
    interface mode [m] and the value [reg] returned by [adin_ext_read]: the
    computation of the function body between the read and the write, as a
    function of the two values it depends on. *)
Definition rgmii_cfg_word {H : Host} (m reg : Z) : Z :=
  if negb ((PHY_INTERFACE_MODE_RGMII <=? m) && (m <=? PHY_INTERFACE_MODE_RGMII_TXID))
  then int_and_not reg ADIN1300_GE_RGMII_EN
  else
    let reg := int_or reg ADIN1300_GE_RGMII_EN in
    let reg :=
      if (m =? PHY_INTERFACE_MODE_RGMII_ID) || (m =? PHY_INTERFACE_MODE_RGMII_RXID)
      then int_or reg ADIN1300_GE_RGMII_RXID_EN
      else int_and_not reg ADIN1300_GE_RGMII_RXID_EN in
    if (m =? PHY_INTERFACE_MODE_RGMII_ID) || (m =? PHY_INTERFACE_MODE_RGMII_TXID)
    then int_or reg ADIN1300_GE_RGMII_TXID_EN
    else int_and_not reg ADIN1300_GE_RGMII_TXID_EN.

(** The bits of the word, one by one: outside the RGMII range only bit 0 is
    touched; inside it bits 0, 1 and 2 are decided by the mode and the others
    are those of the value read. *)
Definition rgmii_cfg_bit {H : Host} (m reg n : Z) : bool :=
  if (PHY_INTERFACE_MODE_RGMII <=? m) && (m <=? PHY_INTERFACE_MODE_RGMII_TXID)
  then
    if n =? 0 then true
    else if n =? 1
    then (m =? PHY_INTERFACE_MODE_RGMII_ID) || (m =? PHY_INTERFACE_MODE_RGMII_TXID)
    else if n =? 2
    then (m =? PHY_INTERFACE_MODE_RGMII_ID) || (m =? PHY_INTERFACE_MODE_RGMII_RXID)
    else Z.testbit reg n
  else
    if n =? 0 then false else Z.testbit reg n.

(** The bus accesses of one read-modify-write of the extended register
    [regnum]: pointer write, data read returning [raw], pointer write, data
    write of [v]; [r0], [r1] and [r] are the results of the three writes. *)
Definition ext_rmw_events (regnum r0 raw r1 v r : Z) : list event :=
  [EvWrite ADIN1300_MII_EXT_REG_PTR regnum r0;
   EvRead ADIN1300_MII_EXT_REG_DATA raw;
   EvWrite ADIN1300_MII_EXT_REG_PTR regnum r1;
   EvWrite ADIN1300_MII_EXT_REG_DATA v r].

(** ** A concrete host

    The interface-mode names and error numbers of the 5.4 kernel the driver
    was written for, the kernel's [strcasecmp], a device-tree node as its list
    of properties, and an MDIO bus with the ADIN1300 indirect register file in
    which single accesses can be made to fail. *)
Module Imx.

Definition EIO : Z := 5.
Definition ENODEV : Z := 19.
Definition EINVAL : Z := 22.
Definition ENODATA : Z := 61.

Definition mode_names : list string :=
  [ ""; "internal"; "mii"; "gmii"; "sgmii"; "tbi"; "rev-mii"; "rmii";
    "rgmii"; "rgmii-id"; "rgmii-rxid"; "rgmii-txid"; "rtbi"; "smii";
    "xgmii"; "moca"; "qsgmii"; "trgmii"; "1000base-x"; "2500base-x";
    "rxaui"; "xaui"; "10gbase-kr"; "usxgmii" ].

Definition phy_modes (i : Z) : string :=
  if i <? 0 then "unknown" else nth (Z.to_nat i) mode_names "unknown".

(** [tolower] of linux/ctype.h on a byte: the upper-case letters of ASCII and
    of Latin-1 are moved down by 32. *)
Definition isupper (c : Z) : bool :=
  ((65 <=? c) && (c <=? 90)) || ((192 <=? c) && (c <=? 214)) ||
  ((216 <=? c) && (c <=? 222)).

Definition tolower (c : ascii) : Z :=
  let c := Z.of_N (N_of_ascii c) in
  if isupper c then c + 32 else c.

(** [strcasecmp] of lib/string.c; the end of a string reads as the byte 0. *)
Fixpoint strcasecmp (s1 s2 : string) : Z :=
  match s1, s2 with
  | EmptyString, EmptyString => 0
  | EmptyString, String c2 _ => 0 - tolower c2
  | String c1 _, EmptyString => tolower c1 - 0
  | String c1 r1, String c2 r2 =>
      if (tolower c1 =? tolower c2) && negb (tolower c1 =? 0)
      then strcasecmp r1 r2
      else tolower c1 - tolower c2
  end.

(** A device-tree node: its properties in order, each with its name and,
    unless it is empty, its string value. *)
Definition device_node : Type := list (string * option string).

Fixpoint of_find_property (np : device_node) (name : string)
  : option (option string) :=
  match np with
  | [] => None
  | (n, v) :: rest =>
      if String.eqb n name then Some v else of_find_property rest name
  end.

Definition of_property_read_string (np : device_node) (name : string)
  : Z * string :=
  match of_find_property np name with
  | None => (- EINVAL, "")
  | Some None => (- ENODATA, "")
  | Some (Some s) => (0, s)
  end.

Definition of_property_read_bool (np : device_node) (name : string) : bool :=
  match of_find_property np name with
  | None => false
  | Some _ => true
  end.

(** The bus: the extended registers by address, the pointer register, and the
    outcome of the coming accesses ([0] or absent: the access is carried out;
    negative: it fails with that error and changes nothing). *)
Record mii_bus : Type := mk_bus {
  ext_regs : list (Z * Z);
  ext_ptr : Z;
  faults : list Z
}.

Fixpoint ext_get (regs : list (Z * Z)) (a : Z) : Z :=
  match regs with
  | [] => 0
  | (k, v) :: rest => if k =? a then v else ext_get rest a
  end.

Definition next_fault (b : mii_bus) : Z * mii_bus :=
  match faults b with
  | [] => (0, b)
  | e :: fs => (e, mk_bus (ext_regs b) (ext_ptr b) fs)
  end.

Definition mdiobus_read (b : mii_bus) (regnum : Z) : Z * mii_bus :=
  let '(e, b) := next_fault b in
  if e <? 0 then (e, b)
  else if regnum =? ADIN1300_MII_EXT_REG_DATA then (ext_get (ext_regs b) (ext_ptr b), b)
  else if regnum =? ADIN1300_MII_EXT_REG_PTR then (ext_ptr b, b)
  else (0, b).

Definition mdiobus_write (b : mii_bus) (regnum val : Z) : Z * mii_bus :=
  let '(e, b) := next_fault b in
  if e <? 0 then (e, b)
  else if regnum =? ADIN1300_MII_EXT_REG_DATA
  then (0, mk_bus ((ext_ptr b, val) :: ext_regs b) (ext_ptr b) (faults b))
  else if regnum =? ADIN1300_MII_EXT_REG_PTR
  then (0, mk_bus (ext_regs b) val (faults b))
  else (0, b).

End Imx.

#[export] Instance imx_host : Host := {|
  PHY_INTERFACE_MODE_RGMII := 8;
  PHY_INTERFACE_MODE_RGMII_ID := 9;
  PHY_INTERFACE_MODE_RGMII_RXID := 10;
  PHY_INTERFACE_MODE_RGMII_TXID := 11;
  PHY_INTERFACE_MODE_MAX := 24;
  phy_modes := Imx.phy_modes;
  ENODEV := Imx.ENODEV;
  strcasecmp := Imx.strcasecmp;
  device_node := Imx.device_node;
  of_property_read_string := Imx.of_property_read_string;
  of_property_read_bool := Imx.of_property_read_bool;
  mii_bus := Imx.mii_bus;
  mdiobus_read := Imx.mdiobus_read;
  mdiobus_write := Imx.mdiobus_write
|}.

(** A board description and a bus to run the handler on: the RGMII
    configuration register holds [reg], the clock register [0x0e02], and the
    coming bus accesses end as [fs] says. *)
Definition imx_node (override : option string) (clk : bool) : Imx.device_node :=
  (match override with
   | Some s => [(prop_phy_mode_override, Some s)]
   | None => []
   end) ++
  (if clk then [(prop_clk_rcvr_125_en, None)] else []).

Definition imx_bus (reg : Z) (fs : list Z) : Imx.mii_bus :=
  Imx.mk_bus [(ADIN1300_GE_RGMII_CFG_REG, reg); (ADIN1300_GE_CLK_CFG, 0x0e02)] 0 fs.

Definition imx_phydev (mode : Z) (override : option string) (clk : bool)
  (reg : Z) (fs : list Z) : phy_device imx_host :=
  mk_phy_device mode (imx_node override clk) (imx_bus reg fs).

(** The documentation's reading of the clock step: a negative outcome of the
    initial read and a negative outcome of the final write reach the caller
    alike, so a run whose read fails with [e] and a run whose write fails
    with [e] return the same value. *)
Definition clock_errors_returned_alike (H : Host) : Prop :=
  forall (d1 d2 : phy_device H) (e v : Z),
    e < 0 ->
    of_property_read_bool (of_node d1) prop_clk_rcvr_125_en = true ->
    of_property_read_bool (of_node d2) prop_clk_rcvr_125_en = true ->
    In (EvRead ADIN1300_MII_EXT_REG_DATA e) (events (adin_set_clock_config d1)) ->
    In (EvWrite ADIN1300_MII_EXT_REG_DATA v e) (events (adin_set_clock_config d2)) ->
    result (adin_set_clock_config d1) = result (adin_set_clock_config d2).

(** ** Registration of the handler *)

Definition PHY_ID_ADIN1200 : Z := 0x0283bc20.
Definition PHY_ID_ADIN1300 : Z := 0x0283bc30.

(** [adin_register_fixup].  [builtin_phylib] is [IS_BUILTIN(CONFIG_PHYLIB)];
    [phy_register_fixup_for_uid] is the host's registration function, which
    takes the identifier, the mask and the handler and returns its status
    with the new state of the host's registry.  The function returns nothing;
    what it leaves behind is the registry and the log. *)
Definition adin_register_fixup {H : Host} {R : Type}
    (builtin_phylib : bool)
    (phy_register_fixup_for_uid : Z -> Z -> M H Z -> R -> Z * R)
    (registry : R) : R * list event :=
  if negb builtin_phylib then (registry, [])
  else
    let '(err, registry) :=
      phy_register_fixup_for_uid PHY_ID_ADIN1300 0xffffffff
        adin1300_phy_fixup registry in
    if negb (err =? 0)
    then (registry,
          [EvPrintk ("adin_register_fixup: Error: Cannot register PHY board fixup"
                     ++ nl)%string])
    else (registry, []).

(** ** Predicates on events *)

(** A bus access, as opposed to a log line. *)
Definition is_bus_access (e : event) : bool :=
  match e with
  | EvRead _ _ | EvWrite _ _ _ => true
  | EvPrintk _ => false
  end.

(** A write of [regnum] to the pointer register. *)
Definition points_at (regnum : Z) (e : event) : bool :=
  match e with
  | EvWrite r v _ => (r =? ADIN1300_MII_EXT_REG_PTR) && (v =? regnum)
  | _ => false
  end.

(** The accesses of the two extended registers the driver knows: a read or a
    write of the data register, or a write of one of the two addresses to the
    pointer register. *)
Definition adin_access (e : event) : bool :=
  match e with
  | EvPrintk _ => true
  | EvRead r _ => r =? ADIN1300_MII_EXT_REG_DATA
  | EvWrite r v _ =>
      (r =? ADIN1300_MII_EXT_REG_DATA) ||
      ((r =? ADIN1300_MII_EXT_REG_PTR) &&
       ((v =? ADIN1300_GE_RGMII_CFG_REG) || (v =? ADIN1300_GE_CLK_CFG)))
  end.

(** The last line the handler logs, for the mode [m]. *)
Definition mode_line {H : Host} (m : Z) : string :=
  ("adin1300_phy_fixup: PHY is using mode '" ++ phy_modes m ++ "'" ++ nl)%string.

(** * Properties *)

(** ** Runs on the concrete host *)

Example run_rgmii_id :
  adin1300_phy_fixup (imx_phydev 2 (Some "RGMII-ID") false 0x0e00 []) =
  (0,
   mk_phy_device 9 (imx_node (Some "RGMII-ID") false)
     (Imx.mk_bus [(0xff23, 0x0e07); (0xff23, 0x0e00); (0xff1f, 0x0e02)] 0xff23 []),
   [EvWrite 0x10 0xff23 0; EvRead 0x11 0x0e00;
    EvWrite 0x10 0xff23 0; EvWrite 0x11 0x0e07 0;
    EvPrintk ("adin1300_phy_fixup: PHY is using mode 'rgmii-id'" ++ nl)%string]).
Proof. vm_compute. reflexivity. Qed.

(** ** Integer conversions and bit operations *)

Lemma to_u16_range (x : Z) : 0 <= to_u16 x < 2 ^ 16.
Proof. unfold to_u16. apply Z.mod_pos_bound. lia. Qed.

Lemma to_u16_small (x : Z) : 0 <= x < 2 ^ 16 -> to_u16 x = x.
Proof. intros Hx. unfold to_u16. now apply Z.mod_small. Qed.

Lemma to_u16_idem (x : Z) : to_u16 (to_u16 x) = to_u16 x.
Proof. apply to_u16_small, to_u16_range. Qed.

Lemma to_u16_nonneg (x : Z) : (to_u16 x <? 0) = false.
Proof. apply Z.ltb_ge. apply to_u16_range. Qed.

Lemma to_int_small (x : Z) : - 2 ^ 31 <= x < 2 ^ 31 -> to_int x = x.
Proof.
  intros Hx. unfold to_int. rewrite Z.mod_small; lia.
Qed.

Lemma u16_as_mask (x : Z) : 0 <= x < 2 ^ 16 -> Z.land x (Z.ones 16) = x.
Proof.
  intros Hx. rewrite Z.land_ones by lia. now apply Z.mod_small.
Qed.

Lemma lor_u16 (a b : Z) :
  0 <= a < 2 ^ 16 -> 0 <= b < 2 ^ 16 -> 0 <= Z.lor a b < 2 ^ 16.
Proof.
  intros Ha Hb.
  rewrite <- (u16_as_mask a Ha), <- (u16_as_mask b Hb).
  rewrite <- Z.land_lor_distr_l, Z.land_ones by lia.
  apply Z.mod_pos_bound. lia.
Qed.

Lemma land_u16 (a m : Z) : 0 <= a < 2 ^ 16 -> 0 <= Z.land a m < 2 ^ 16.
Proof.
  intros Ha.
  rewrite <- (u16_as_mask a Ha).
  rewrite <- Z.land_assoc, (Z.land_comm (Z.ones 16) m), Z.land_assoc.
  rewrite Z.land_ones by lia.
  apply Z.mod_pos_bound. lia.
Qed.

Lemma int_or_u16 (reg mask : Z) :
  0 <= reg < 2 ^ 16 -> 0 <= mask < 2 ^ 16 ->
  int_or reg mask = Z.lor reg mask /\ 0 <= int_or reg mask < 2 ^ 16.
Proof.
  intros Hr Hm. pose proof (lor_u16 reg mask Hr Hm) as Hb.
  unfold int_or. rewrite to_int_small by lia. auto.
Qed.

Lemma int_and_not_u16 (reg mask : Z) :
  0 <= reg < 2 ^ 16 ->
  int_and_not reg mask = Z.land reg (Z.lnot mask) /\
  0 <= int_and_not reg mask < 2 ^ 16.
Proof.
  intros Hr. pose proof (land_u16 reg (Z.lnot mask) Hr) as Hb.
  unfold int_and_not. rewrite to_int_small by lia. auto.
Qed.

(** Setting or clearing [BIT k] changes bit [k] and no other. *)
Lemma testbit_lor_BIT (reg k n : Z) :
  0 <= k -> 0 <= n ->
  Z.testbit (Z.lor reg (BIT k)) n = (Z.testbit reg n || (n =? k))%bool.
Proof.
  intros Hk Hn. unfold BIT.
  rewrite Z.lor_spec, Z.shiftl_1_l, Z.pow2_bits_eqb by lia.
  now rewrite (Z.eqb_sym k n).
Qed.

Lemma testbit_land_not_BIT (reg k n : Z) :
  0 <= k -> 0 <= n ->
  Z.testbit (Z.land reg (Z.lnot (BIT k))) n =
  (Z.testbit reg n && negb (n =? k))%bool.
Proof.
  intros Hk Hn. unfold BIT.
  rewrite Z.land_spec, Z.lnot_spec, Z.shiftl_1_l, Z.pow2_bits_eqb by lia.
  now rewrite (Z.eqb_sym k n).
Qed.

Lemma BIT_u16 (k : Z) : 0 <= k < 16 -> 0 <= BIT k < 2 ^ 16.
Proof.
  intros Hk. unfold BIT. rewrite Z.shiftl_1_l.
  split; [apply Z.pow_nonneg; lia | apply Z.pow_lt_mono_r; lia].
Qed.

Lemma int_or_BIT (reg k : Z) :
  0 <= reg < 2 ^ 16 -> 0 <= k < 16 ->
  0 <= int_or reg (BIT k) < 2 ^ 16 /\
  forall n, 0 <= n ->
    Z.testbit (int_or reg (BIT k)) n = (Z.testbit reg n || (n =? k))%bool.
Proof.
  intros Hr Hk.
  destruct (int_or_u16 reg (BIT k) Hr (BIT_u16 k Hk)) as [-> Hb].
  split; [exact Hb | intros n Hn; apply testbit_lor_BIT; lia].
Qed.

Lemma int_and_not_BIT (reg k : Z) :
  0 <= reg < 2 ^ 16 -> 0 <= k < 16 ->
  0 <= int_and_not reg (BIT k) < 2 ^ 16 /\
  forall n, 0 <= n ->
    Z.testbit (int_and_not reg (BIT k)) n =
    (Z.testbit reg n && negb (n =? k))%bool.
Proof.
  intros Hr Hk.
  destruct (int_and_not_u16 reg (BIT k) Hr) as [-> Hb].
  split; [exact Hb | intros n Hn; apply testbit_land_not_BIT; lia].
Qed.

(** ** The register word *)

Section Word.

Context {H : Host}.

Lemma rgmii_cfg_word_spec (m reg : Z) :
  0 <= reg < 2 ^ 16 ->
  0 <= rgmii_cfg_word m reg < 2 ^ 16 /\
  forall n, 0 <= n -> Z.testbit (rgmii_cfg_word m reg) n = rgmii_cfg_bit m reg n.
Proof.
  intros Hr. unfold rgmii_cfg_word, rgmii_cfg_bit.
  unfold ADIN1300_GE_RGMII_EN, ADIN1300_GE_RGMII_RXID_EN, ADIN1300_GE_RGMII_TXID_EN.
  destruct ((PHY_INTERFACE_MODE_RGMII <=? m) &&
            (m <=? PHY_INTERFACE_MODE_RGMII_TXID))%bool; cbn [negb].
  - destruct (int_or_BIT reg 0 Hr ltac:(lia)) as [R0 B0].
    set (r0 := int_or reg (BIT 0)) in *.
    assert (S1 : forall b : bool,
      let r1 := if b then int_or r0 (BIT 2) else int_and_not r0 (BIT 2) in
      0 <= r1 < 2 ^ 16 /\
      forall n, 0 <= n -> Z.testbit r1 n =
        if n =? 2 then b else Z.testbit r0 n).
    { intros [|]; cbn zeta.
      - destruct (int_or_BIT r0 2 R0 ltac:(lia)) as [R B]. split; [exact R|].
        intros n Hn. rewrite B by lia.
        destruct (n =? 2); [apply orb_true_r | apply orb_false_r].
      - destruct (int_and_not_BIT r0 2 R0 ltac:(lia)) as [R B]. split; [exact R|].
        intros n Hn. rewrite B by lia.
        destruct (n =? 2); [apply andb_false_r | apply andb_true_r]. }
    specialize (S1 ((m =? PHY_INTERFACE_MODE_RGMII_ID) ||
                    (m =? PHY_INTERFACE_MODE_RGMII_RXID))%bool).
    cbn zeta in S1. destruct S1 as [R1 B1].
    set (r1 := if ((m =? PHY_INTERFACE_MODE_RGMII_ID) ||
                   (m =? PHY_INTERFACE_MODE_RGMII_RXID))%bool
               then int_or r0 (BIT 2) else int_and_not r0 (BIT 2)) in *.
    assert (S2 : forall b : bool,
      let r2 := if b then int_or r1 (BIT 1) else int_and_not r1 (BIT 1) in
      0 <= r2 < 2 ^ 16 /\
      forall n, 0 <= n -> Z.testbit r2 n =
        if n =? 1 then b else Z.testbit r1 n).
    { intros [|]; cbn zeta.
      - destruct (int_or_BIT r1 1 R1 ltac:(lia)) as [R B]. split; [exact R|].
        intros n Hn. rewrite B by lia.
        destruct (n =? 1); [apply orb_true_r | apply orb_false_r].
      - destruct (int_and_not_BIT r1 1 R1 ltac:(lia)) as [R B]. split; [exact R|].
        intros n Hn. rewrite B by lia.
        destruct (n =? 1); [apply andb_false_r | apply andb_true_r]. }
    specialize (S2 ((m =? PHY_INTERFACE_MODE_RGMII_ID) ||
                    (m =? PHY_INTERFACE_MODE_RGMII_TXID))%bool).
    cbn zeta in S2. destruct S2 as [R2 B2].
    split; [exact R2|].
    intros n Hn. rewrite B2, B1, B0 by lia.
    destruct (Z.eqb_spec n 0) as [->|N0]; [cbn; apply orb_true_r|].
    destruct (Z.eqb_spec n 1) as [->|N1]; [reflexivity|].
    destruct (Z.eqb_spec n 2) as [->|N2]; [reflexivity|].
    apply orb_false_r.
  - destruct (int_and_not_BIT reg 0 Hr ltac:(lia)) as [R B]. split; [exact R|].
    intros n Hn. rewrite B by lia.
    destruct (n =? 0); [apply andb_false_r | apply andb_true_r].
Qed.

End Word.

(** ** Runs of the driver functions *)

Section Runs.

Context {H : Host}.

Lemma adin_ext_read_run (regnum : Z) (d : phy_device H) :
  exists r0 raw b,
    adin_ext_read regnum d =
    (to_u16 raw, set_bus b d, [EvWrite ADIN1300_MII_EXT_REG_PTR (to_u16 regnum) r0; EvRead ADIN1300_MII_EXT_REG_DATA raw]).
Proof.
  unfold adin_ext_read, bind, phy_write, phy_read, ret.
  destruct (mdiobus_write (bus d) ADIN1300_MII_EXT_REG_PTR (to_u16 regnum)) as [r0 b0].
  cbn. destruct (mdiobus_read b0 ADIN1300_MII_EXT_REG_DATA) as [raw b1].
  now exists r0, raw, b1.
Qed.

Lemma adin_ext_write_run (regnum val : Z) (d : phy_device H) :
  exists r0 r b,
    adin_ext_write regnum val d =
    (r, set_bus b d,
     [EvWrite ADIN1300_MII_EXT_REG_PTR (to_u16 regnum) r0; EvWrite ADIN1300_MII_EXT_REG_DATA (to_u16 val) r]).
Proof.
  unfold adin_ext_write, bind, phy_write.
  destruct (mdiobus_write (bus d) ADIN1300_MII_EXT_REG_PTR (to_u16 regnum)) as [r0 b0].
  cbn. rewrite to_u16_idem.
  destruct (mdiobus_write b0 ADIN1300_MII_EXT_REG_DATA (to_u16 val)) as [r b1].
  now exists r0, r, b1.
Qed.

(** The scan returns the first index of the table whose name compares equal. *)
Lemma phy_mode_scan_some (s : string) (n : nat) (i j : Z) :
  phy_mode_scan s i n = Some j ->
  i <= j < i + Z.of_nat n /\
  strcasecmp s (phy_modes j) = 0 /\
  forall k, i <= k < j -> strcasecmp s (phy_modes k) <> 0.
Proof.
  revert i. induction n as [|n IH]; intros i; cbn [phy_mode_scan].
  - discriminate.
  - destruct (Z.eqb_spec (strcasecmp s (phy_modes i)) 0) as [E|E].
    + intros [= <-]. split; [lia|]. split; [exact E|]. intros k Hk. lia.
    + intros Hs. destruct (IH _ Hs) as (Hr & Hm & Hf).
      split; [lia|]. split; [exact Hm|].
      intros k Hk. destruct (Z.eq_dec k i) as [->|]; [exact E | apply Hf; lia].
Qed.

Lemma phy_mode_scan_first (s : string) (n : nat) (i j : Z) :
  i <= j < i + Z.of_nat n ->
  strcasecmp s (phy_modes j) = 0 ->
  (forall k, i <= k < j -> strcasecmp s (phy_modes k) <> 0) ->
  phy_mode_scan s i n = Some j.
Proof.
  revert i. induction n as [|n IH]; intros i Hr Hm Hf; cbn [phy_mode_scan].
  - lia.
  - destruct (Z.eqb_spec (strcasecmp s (phy_modes i)) 0) as [E|E].
    + destruct (Z.eq_dec i j) as [->|Hne]; [reflexivity|].
      exfalso. apply (Hf i); [lia | exact E].
    + assert (i <> j) by (intros ->; contradiction).
      apply IH; [lia | exact Hm | intros k Hk; apply Hf; lia].
Qed.

Lemma phy_mode_scan_none (s : string) (n : nat) (i : Z) :
  (forall k, i <= k < i + Z.of_nat n -> strcasecmp s (phy_modes k) <> 0) ->
  phy_mode_scan s i n = None.
Proof.
  revert i. induction n as [|n IH]; intros i Hf; cbn [phy_mode_scan].
  - reflexivity.
  - destruct (Z.eqb_spec (strcasecmp s (phy_modes i)) 0) as [E|E].
    + exfalso. apply (Hf i); [lia | exact E].
    + apply IH. intros k Hk. apply Hf. lia.
Qed.

Lemma phy_mode_scan_none_inv (s : string) (n : nat) (i : Z) :
  phy_mode_scan s i n = None ->
  forall k, i <= k < i + Z.of_nat n -> strcasecmp s (phy_modes k) <> 0.
Proof.
  revert i. induction n as [|n IH]; intros i; cbn [phy_mode_scan].
  - intros _ k Hk. lia.
  - destruct (Z.eqb_spec (strcasecmp s (phy_modes i)) 0) as [E|E];
      [discriminate|].
    intros Hs k Hk. destruct (Z.eq_dec k i) as [->|]; [exact E|].
    apply (IH _ Hs). lia.
Qed.

(** The override lookup leaves the device alone, touches no register, and
    does not look at the interface mode or at the bus. *)
Lemma adin_get_phy_mode_override_run (d : phy_device H) :
  exists ov pre,
    forallb is_printk pre = true /\
    forall m b,
      adin_get_phy_mode_override (mk_phy_device m (of_node d) b) =
      (ov, mk_phy_device m (of_node d) b, pre).
Proof.
  unfold adin_get_phy_mode_override, bind, get, printk, ret. cbn.
  destruct (of_property_read_string (of_node d) prop_phy_mode_override)
    as [err s].
  destruct (err <? 0).
  - now exists err, [].
  - destruct (phy_mode_scan s 0 (Z.to_nat PHY_INTERFACE_MODE_MAX)) as [i|].
    + now exists i, [].
    + now exists (- ENODEV), [EvPrintk (override_diagnostic s)].
Qed.

Lemma phy_device_eta (d : phy_device H) :
  d = mk_phy_device (interface d) (of_node d) (bus d).
Proof. now destruct d. Qed.

(** Every run of [adin_config_rgmii_mode]: the lookup, then the four bus
    accesses; the word written is the one computed from the mode the handle
    holds after the lookup. *)
Lemma adin_config_rgmii_mode_run (d : phy_device H) :
  exists ov pre r0 raw r1 r b,
    adin_get_phy_mode_override d = (ov, d, pre) /\
    forallb is_printk pre = true /\
    adin_config_rgmii_mode d =
    (r,
     mk_phy_device (if 0 <=? ov then ov else interface d) (of_node d) b,
     pre ++
     [EvWrite ADIN1300_MII_EXT_REG_PTR ADIN1300_GE_RGMII_CFG_REG r0; EvRead ADIN1300_MII_EXT_REG_DATA raw;
      EvWrite ADIN1300_MII_EXT_REG_PTR ADIN1300_GE_RGMII_CFG_REG r1;
      EvWrite ADIN1300_MII_EXT_REG_DATA
        (rgmii_cfg_word (if 0 <=? ov then ov else interface d) (to_u16 raw)) r]).
Proof.
  destruct (adin_get_phy_mode_override_run d) as (ov & pre & Hpre & Hov).
  specialize (Hov (interface d) (bus d)). rewrite <- phy_device_eta in Hov.
  set (m := if 0 <=? ov then ov else interface d).
  set (d1 := mk_phy_device m (of_node d) (bus d)).
  destruct (adin_ext_read_run ADIN1300_GE_RGMII_CFG_REG d1) as (r0 & raw & b0 & Er).
  set (w := rgmii_cfg_word m (to_u16 raw)).
  destruct (adin_ext_write_run ADIN1300_GE_RGMII_CFG_REG w (set_bus b0 d1))
    as (r1 & r & b1 & Ew).
  exists ov, pre, r0, raw, r1, r, b1.
  split; [exact Hov|]. split; [exact Hpre|].
  assert (Hw : to_u16 w = w).
  { apply to_u16_small, rgmii_cfg_word_spec, to_u16_range. }
  rewrite Hw in Ew.
  assert (Hd1 : (if 0 <=? ov then put_interface ov else ret tt) d = (tt, d1, [])).
  { unfold d1, m. destruct (0 <=? ov); cbn; [reflexivity|].
    unfold ret. now rewrite <- phy_device_eta. }
  unfold adin_config_rgmii_mode, bind.
  rewrite Hov, Hd1, Er, to_u16_nonneg.
  unfold get.
  change (adin_phy_interface_is_rgmii (set_bus b0 d1))
    with ((PHY_INTERFACE_MODE_RGMII <=? m) && (m <=? PHY_INTERFACE_MODE_RGMII_TXID))%bool.
  change (interface (set_bus b0 d1)) with m.
  fold w in Ew |- *.
  unfold w at 1, rgmii_cfg_word in Ew.
  destruct (negb ((PHY_INTERFACE_MODE_RGMII <=? m) &&
                  (m <=? PHY_INTERFACE_MODE_RGMII_TXID))).
  - rewrite Ew. reflexivity.
  - cbn zeta in Ew |- *. rewrite Ew. reflexivity.
Qed.

End Runs.

(** ** The four RGMII variants and the range test *)

Lemma rgmii_range_variant {H : Host} {O : PhyEnumOrder H} (m : Z) :
  ((PHY_INTERFACE_MODE_RGMII <=? m) && (m <=? PHY_INTERFACE_MODE_RGMII_TXID))%bool
  = true <-> is_rgmii_variant m.
Proof.
  destruct O as [E1 E2 E3]. unfold is_rgmii_variant.
  rewrite andb_true_iff, !Z.leb_le. lia.
Qed.

Lemma rgmii_range_not_variant {H : Host} {O : PhyEnumOrder H} (m : Z) :
  ((PHY_INTERFACE_MODE_RGMII <=? m) && (m <=? PHY_INTERFACE_MODE_RGMII_TXID))%bool
  = false <-> ~ is_rgmii_variant m.
Proof.
  rewrite <- rgmii_range_variant. now rewrite not_true_iff_false.
Qed.

(** ** The other steps of the handler *)

Section Steps.

Context {H : Host}.

(** The lookup when the property names an entry of the table. *)
Lemma override_first_match (d : phy_device H) (err i : Z) (s : string) :
  of_property_read_string (of_node d) prop_phy_mode_override = (err, s) ->
  0 <= err ->
  0 <= i < PHY_INTERFACE_MODE_MAX ->
  strcasecmp s (phy_modes i) = 0 ->
  (forall k, 0 <= k < i -> strcasecmp s (phy_modes k) <> 0) ->
  adin_get_phy_mode_override d = (i, d, []).
Proof.
  intros Hs He Hi Hm Hf.
  unfold adin_get_phy_mode_override, bind, get, ret. rewrite Hs.
  replace (err <? 0) with false by (symmetry; apply Z.ltb_ge; lia).
  rewrite (phy_mode_scan_first s _ 0 i); [reflexivity | lia | exact Hm | exact Hf].
Qed.

(** The lookup when some entry of the table compares equal: it returns the
    first such entry. *)
Lemma override_match (d : phy_device H) (err j : Z) (s : string) :
  of_property_read_string (of_node d) prop_phy_mode_override = (err, s) ->
  0 <= err ->
  0 <= j < PHY_INTERFACE_MODE_MAX ->
  strcasecmp s (phy_modes j) = 0 ->
  exists i,
    0 <= i <= j /\
    strcasecmp s (phy_modes i) = 0 /\
    (forall k, 0 <= k < i -> strcasecmp s (phy_modes k) <> 0) /\
    adin_get_phy_mode_override d = (i, d, []).
Proof.
  intros Hs He Hj Hm.
  destruct (phy_mode_scan s 0 (Z.to_nat PHY_INTERFACE_MODE_MAX)) as [i|] eqn:Hscan.
  - destruct (phy_mode_scan_some _ _ _ _ Hscan) as (Hr & Hmi & Hfi).
    exists i. split.
    + destruct (Z_le_gt_dec i j) as [Hle|Hgt]; [lia|].
      exfalso. apply (Hfi j); [lia | exact Hm].
    + split; [exact Hmi|]. split; [exact Hfi|].
      apply (override_first_match d err i s Hs He); [lia | exact Hmi | exact Hfi].
  - exfalso. apply (phy_mode_scan_none_inv _ _ _ Hscan j); [lia | exact Hm].
Qed.

(** The lookup when the property names no entry of the table. *)
Lemma override_no_match (d : phy_device H) (err : Z) (s : string) :
  of_property_read_string (of_node d) prop_phy_mode_override = (err, s) ->
  0 <= err ->
  (forall k, 0 <= k < PHY_INTERFACE_MODE_MAX -> strcasecmp s (phy_modes k) <> 0) ->
  adin_get_phy_mode_override d = (- ENODEV, d, [EvPrintk (override_diagnostic s)]).
Proof.
  intros Hs He Hf.
  unfold adin_get_phy_mode_override, bind, get, ret, printk. rewrite Hs.
  replace (err <? 0) with false by (symmetry; apply Z.ltb_ge; lia).
  rewrite phy_mode_scan_none; [reflexivity|].
  intros k Hk. apply Hf. lia.
Qed.

(** Every run of the clock step. *)
Lemma adin_set_clock_config_off (d : phy_device H) :
  of_property_read_bool (of_node d) prop_clk_rcvr_125_en = false ->
  adin_set_clock_config d = (0, d, []).
Proof.
  intros Hoff. unfold adin_set_clock_config, bind, get, ret.
  now rewrite Hoff.
Qed.

Lemma adin_set_clock_config_on (d : phy_device H) :
  of_property_read_bool (of_node d) prop_clk_rcvr_125_en = true ->
  exists r0 raw r1 r b,
    adin_set_clock_config d =
    (r, set_bus b d,
     EvPrintk ("adin_set_clock_config: Enabling 125 MHz clock out" ++ nl)%string ::
     ext_rmw_events ADIN1300_GE_CLK_CFG r0 raw r1
       (Z.lor (to_u16 raw) ADIN1300_GE_CLK_RCVR_125_EN) r).
Proof.
  intros Hon.
  destruct (adin_ext_read_run ADIN1300_GE_CLK_CFG d) as (r0 & raw & b0 & Er).
  destruct (int_or_u16 (to_u16 raw) ADIN1300_GE_CLK_RCVR_125_EN
              (to_u16_range raw) (BIT_u16 5 ltac:(lia))) as [Eor Ror].
  destruct (adin_ext_write_run ADIN1300_GE_CLK_CFG
              (int_or (to_u16 raw) ADIN1300_GE_CLK_RCVR_125_EN) (set_bus b0 d))
    as (r1 & r & b1 & Ew).
  exists r0, raw, r1, r, b1.
  unfold adin_set_clock_config, bind, get, printk, ret. rewrite Hon, Er.
  cbn zeta. rewrite Ew. rewrite (to_u16_small _ Ror), Eor. reflexivity.
Qed.

Lemma adin_set_clock_config_device (d : phy_device H) :
  interface (device (adin_set_clock_config d)) = interface d /\
  of_node (device (adin_set_clock_config d)) = of_node d.
Proof.
  destruct (of_property_read_bool (of_node d) prop_clk_rcvr_125_en) eqn:E.
  - destruct (adin_set_clock_config_on d E) as (r0 & raw & r1 & r & b & ->).
    now cbn.
  - now rewrite (adin_set_clock_config_off d E).
Qed.

(** The handler, step by step. *)
Lemma adin1300_phy_fixup_run (d : phy_device H) :
  adin1300_phy_fixup d =
  let c := adin_config_rgmii_mode d in
  if result c <? 0 then c
  else
    let k := adin_set_clock_config (device c) in
    if result k <? 0 then (result k, device k, events c ++ events k)
    else
      (0, device k,
       events c ++ events k ++
       [EvPrintk ("adin1300_phy_fixup: PHY is using mode '" ++
                  phy_modes (interface (device k)) ++ "'" ++ nl)%string]).
Proof.
  unfold adin1300_phy_fixup, bind, get, printk, ret.
  destruct (adin_config_rgmii_mode d) as [[rc d1] e1].
  cbn [result device events fst snd].
  destruct (rc <? 0); [now rewrite app_nil_r|].
  destruct (adin_set_clock_config d1) as [[rc2 d2] e2].
  cbn [result device events fst snd].
  destruct (rc2 <? 0); [now rewrite app_nil_r|].
  cbn. reflexivity.
Qed.

Lemma adin1300_phy_fixup_interface (d : phy_device H) :
  interface (device (adin1300_phy_fixup d)) =
  interface (device (adin_config_rgmii_mode d)).
Proof.
  rewrite adin1300_phy_fixup_run. cbn zeta.
  destruct (result (adin_config_rgmii_mode d) <? 0); [reflexivity|].
  destruct (result (adin_set_clock_config (device (adin_config_rgmii_mode d))) <? 0);
    cbn [device fst snd]; apply adin_set_clock_config_device.
Qed.

End Steps.

(** A table scan checked by evaluation. *)
Lemma no_match_below {H : Host} (s : string) (n : nat) :
  forallb (fun k => negb (strcasecmp s (phy_modes k) =? 0))
          (map Z.of_nat (seq 0 n)) = true ->
  forall k, 0 <= k < Z.of_nat n -> strcasecmp s (phy_modes k) <> 0.
Proof.
  intros Hall k Hk. rewrite forallb_forall in Hall.
  assert (Hin : In k (map Z.of_nat (seq 0 n))).
  { apply in_map_iff. exists (Z.to_nat k). split; [lia|].
    apply in_seq. lia. }
  specialize (Hall k Hin). apply negb_true_iff, Z.eqb_neq in Hall. exact Hall.
Qed.

#[export] Instance imx_order : PhyEnumOrder imx_host.
Proof. split; reflexivity. Qed.

(** ** The claims *)

(** C1. Whenever the mode the handle holds after the override step is one of
    the four RGMII variants, the word [adin_config_rgmii_mode] writes to the
    RGMII configuration register has the enable bit (bit 0) set and the
    RX (bit 2) and TX (bit 1) delay-enable bits of the table
    RGMII: 0 0, RGMII-ID: 1 1, RGMII-RXID: 1 0, RGMII-TXID: 0 1,
    whatever the register held and whatever the bus answered. *)
Theorem C1_rgmii_delay_bits {H : Host} {O : PhyEnumOrder H} (d : phy_device H) :
  is_rgmii_variant (interface (device (adin_config_rgmii_mode d))) ->
  exists pre r0 raw r1 v,
    events (adin_config_rgmii_mode d) =
      pre ++ ext_rmw_events ADIN1300_GE_RGMII_CFG_REG r0 raw r1 v
               (result (adin_config_rgmii_mode d)) /\
    forallb is_printk pre = true /\
    Z.testbit v 0 = true /\
    (interface (device (adin_config_rgmii_mode d)) = PHY_INTERFACE_MODE_RGMII ->
     Z.testbit v 2 = false /\ Z.testbit v 1 = false) /\
    (interface (device (adin_config_rgmii_mode d)) = PHY_INTERFACE_MODE_RGMII_ID ->
     Z.testbit v 2 = true /\ Z.testbit v 1 = true) /\
    (interface (device (adin_config_rgmii_mode d)) = PHY_INTERFACE_MODE_RGMII_RXID ->
     Z.testbit v 2 = true /\ Z.testbit v 1 = false) /\
    (interface (device (adin_config_rgmii_mode d)) = PHY_INTERFACE_MODE_RGMII_TXID ->
     Z.testbit v 2 = false /\ Z.testbit v 1 = true).
Proof.
  destruct (adin_config_rgmii_mode_run d)
    as (ov & pre & r0 & raw & r1 & r & b & _ & Hpre & Hrun).
  rewrite Hrun. cbn [device result events fst snd interface].
  set (m := if 0 <=? ov then ov else interface d).
  intros Hm.
  exists pre, r0, raw, r1, (rgmii_cfg_word m (to_u16 raw)).
  split; [reflexivity|]. split; [exact Hpre|].
  destruct (rgmii_cfg_word_spec m (to_u16 raw) (to_u16_range raw)) as [_ Hbits].
  rewrite !Hbits by lia. unfold rgmii_cfg_bit.
  apply rgmii_range_variant in Hm. rewrite Hm. cbn.
  destruct O as [E1 E2 E3].
  split; [reflexivity|].
  repeat split; subst m;
    repeat match goal with
           | |- context [?a =? ?b] => destruct (Z.eqb_spec a b)
           end; (reflexivity || lia).
Qed.

Lemma C1_rgmii_delay_bits_witness :
  is_rgmii_variant
    (interface (device (adin_config_rgmii_mode
                          (imx_phydev 2 (Some "RGMII-ID") false 0x0e00 [])))) /\
  exists pre r0 raw r1 v,
    events (adin_config_rgmii_mode (imx_phydev 2 (Some "RGMII-ID") false 0x0e00 [])) =
      pre ++ ext_rmw_events ADIN1300_GE_RGMII_CFG_REG r0 raw r1 v 0 /\
    Z.testbit v 0 = true /\ Z.testbit v 2 = true /\ Z.testbit v 1 = true.
Proof.
  assert (Hv : is_rgmii_variant
    (interface (device (adin_config_rgmii_mode
                          (imx_phydev 2 (Some "RGMII-ID") false 0x0e00 []))))).
  { vm_compute. right. left. reflexivity. }
  split; [exact Hv|].
  destruct (C1_rgmii_delay_bits (imx_phydev 2 (Some "RGMII-ID") false 0x0e00 []) Hv)
    as (pre & r0 & raw & r1 & v & Hev & _ & H0 & _ & Hid & _).
  exists pre, r0, raw, r1, v.
  split; [exact Hev|]. split; [exact H0|]. apply Hid. reflexivity.
Defined.

(** C2. The documentation says that a negative value from the read of the
    RGMII configuration register makes the handler return that value at once,
    without the clock step.  The code does not: [adin_ext_read] returns the
    result of [phy_read] as a [u16], so the test [reg < 0] never fires.  On a
    bus whose data-register read fails with -EIO (-5), the handler writes
    0xffff to the RGMII configuration register, goes on to program the clock
    register and returns 0. *)
Theorem C2_read_error_not_returned :
  adin1300_phy_fixup (imx_phydev 9 None true 0x0e00 [0; -5]) =
  (0,
   mk_phy_device 9 (imx_node None true)
     (Imx.mk_bus [(0xff1f, 0x0e22); (0xff23, 0xffff); (0xff23, 0x0e00);
                  (0xff1f, 0x0e02)] 0xff1f []),
   [EvWrite 0x10 0xff23 0; EvRead 0x11 (-5);
    EvWrite 0x10 0xff23 0; EvWrite 0x11 0xffff 0;
    EvPrintk ("adin_set_clock_config: Enabling 125 MHz clock out" ++ nl)%string;
    EvWrite 0x10 0xff1f 0; EvRead 0x11 0x0e02;
    EvWrite 0x10 0xff1f 0; EvWrite 0x11 0x0e22 0;
    EvPrintk ("adin1300_phy_fixup: PHY is using mode 'rgmii-id'" ++ nl)%string]).
Proof. vm_compute. reflexivity. Qed.

(** C3. When the property "adi,phy-mode-override" is present and its string
    compares equal under [strcasecmp] to a name of the mode table (entry
    [j]), the lookup returns the index of a name that compares equal to the
    string (the first one, [i]; it is [j] itself when no earlier name
    compares equal), and the handle's interface mode is that index after
    [adin_config_rgmii_mode] and after the whole handler, whatever mode the
    handle held before. *)
Theorem C3_override_sets_mode {H : Host} (d : phy_device H)
    (err j : Z) (s : string) :
  of_property_read_string (of_node d) prop_phy_mode_override = (err, s) ->
  0 <= err ->
  0 <= j < PHY_INTERFACE_MODE_MAX ->
  strcasecmp s (phy_modes j) = 0 ->
  exists i,
    0 <= i <= j /\
    strcasecmp s (phy_modes i) = 0 /\
    (forall k, 0 <= k < i -> strcasecmp s (phy_modes k) <> 0) /\
    ((forall k, 0 <= k < j -> strcasecmp s (phy_modes k) <> 0) -> i = j) /\
    forall prior : Z,
      result (adin_get_phy_mode_override (set_interface prior d)) = i /\
      interface (device (adin_config_rgmii_mode (set_interface prior d))) = i /\
      interface (device (adin1300_phy_fixup (set_interface prior d))) = i.
Proof.
  intros Hs He Hj Hm.
  destruct (override_match d err j s Hs He Hj Hm) as (i & Hi & Hmi & Hfi & _).
  exists i. split; [exact Hi|]. split; [exact Hmi|]. split; [exact Hfi|].
  split.
  { intros Hfj. destruct (Z.eq_dec i j) as [E|E]; [exact E|].
    exfalso. apply (Hfj i); [lia | exact Hmi]. }
  intros prior.
  pose proof (override_first_match (set_interface prior d) err i s Hs He
                ltac:(lia) Hmi Hfi) as Hov.
  assert (Hc : interface (device (adin_config_rgmii_mode (set_interface prior d))) = i).
  { destruct (adin_config_rgmii_mode_run (set_interface prior d))
      as (ov & pre & r0 & raw & r1 & r & b & Hov' & _ & Hrun).
    rewrite Hov in Hov'. injection Hov' as <- <-.
    rewrite Hrun. cbn [device fst snd interface].
    replace (0 <=? i) with true by (symmetry; apply Z.leb_le; lia).
    reflexivity. }
  split; [now rewrite Hov|]. split; [exact Hc|].
  now rewrite adin1300_phy_fixup_interface.
Qed.

Lemma C3_override_sets_mode_witness :
  exists i,
    0 <= i <= 9 /\
    result (adin_get_phy_mode_override
              (set_interface 2 (imx_phydev 4 (Some "RGMII-ID") false 0x0e00 []))) = i /\
    interface (device (adin1300_phy_fixup
              (set_interface 2 (imx_phydev 4 (Some "RGMII-ID") false 0x0e00 [])))) = i /\
    i = 9.
Proof.
  destruct (C3_override_sets_mode
              (imx_phydev 4 (Some "RGMII-ID") false 0x0e00 []) 0 9 "RGMII-ID")
    as (i & Hi & _ & _ & Hfirst & Hrun).
  - reflexivity.
  - lia.
  - vm_compute. split; [discriminate | reflexivity].
  - vm_compute. reflexivity.
  - exists i. destruct (Hrun 2) as (Hr & _ & Hf).
    split; [exact Hi|]. split; [exact Hr|]. split; [exact Hf|].
    apply Hfirst. apply (no_match_below "RGMII-ID" 9). vm_compute. reflexivity.
Defined.

(** C4. When the property is present but its string compares equal to no name
    of the table, the lookup logs its diagnostic and returns -ENODEV; the
    handle keeps the mode it had; [adin_config_rgmii_mode] goes on to the
    read-modify-write of the RGMII configuration register and returns the
    status of that write, not the lookup's error; and when that status is not
    negative the handler goes on to the clock step. *)
Theorem C4_unknown_override_ignored {H : Host} (d : phy_device H)
    (err : Z) (s : string) :
  of_property_read_string (of_node d) prop_phy_mode_override = (err, s) ->
  0 <= err ->
  0 < ENODEV ->
  (forall k, 0 <= k < PHY_INTERFACE_MODE_MAX -> strcasecmp s (phy_modes k) <> 0) ->
  adin_get_phy_mode_override d =
    (- ENODEV, d, [EvPrintk (override_diagnostic s)]) /\
  interface (device (adin_config_rgmii_mode d)) = interface d /\
  (exists r0 raw r1 v,
     events (adin_config_rgmii_mode d) =
       EvPrintk (override_diagnostic s) ::
       ext_rmw_events ADIN1300_GE_RGMII_CFG_REG r0 raw r1 v
         (result (adin_config_rgmii_mode d))) /\
  interface (device (adin1300_phy_fixup d)) = interface d /\
  (0 <= result (adin_config_rgmii_mode d) ->
   exists tail,
     events (adin1300_phy_fixup d) =
       events (adin_config_rgmii_mode d) ++
       events (adin_set_clock_config (device (adin_config_rgmii_mode d))) ++ tail).
Proof.
  intros Hs He Hno Hf.
  pose proof (override_no_match d err s Hs He Hf) as Hov.
  destruct (adin_config_rgmii_mode_run d)
    as (ov & pre & r0 & raw & r1 & r & b & Hov' & _ & Hrun).
  rewrite Hov in Hov'. injection Hov' as <- <-.
  replace (0 <=? - ENODEV) with false in Hrun
    by (symmetry; apply Z.leb_gt; lia).
  assert (Hi : interface (device (adin_config_rgmii_mode d)) = interface d)
    by now rewrite Hrun.
  split; [exact Hov|]. split; [exact Hi|]. split.
  { rewrite Hrun. cbn [events result fst snd].
    now exists r0, raw, r1, (rgmii_cfg_word (interface d) (to_u16 raw)). }
  split; [now rewrite adin1300_phy_fixup_interface|].
  intros Hok. rewrite adin1300_phy_fixup_run. cbn zeta.
  replace (result (adin_config_rgmii_mode d) <? 0) with false
    by (symmetry; apply Z.ltb_ge; lia).
  destruct (result (adin_set_clock_config (device (adin_config_rgmii_mode d))) <? 0);
    cbn [events snd].
  - exists []. now rewrite app_nil_r.
  - eexists. reflexivity.
Qed.

Lemma C4_unknown_override_ignored_witness :
  adin_get_phy_mode_override (imx_phydev 9 (Some "bogus") true 0x0e07 []) =
    (-19, imx_phydev 9 (Some "bogus") true 0x0e07 [],
     [EvPrintk (override_diagnostic "bogus")]) /\
  interface (device (adin1300_phy_fixup
                       (imx_phydev 9 (Some "bogus") true 0x0e07 []))) = 9.
Proof.
  destruct (C4_unknown_override_ignored
              (imx_phydev 9 (Some "bogus") true 0x0e07 []) 0 "bogus")
    as (Hov & _ & _ & Hi & _).
  - reflexivity.
  - lia.
  - vm_compute. reflexivity.
  - apply (no_match_below "bogus" 24). vm_compute. reflexivity.
  - split; [exact Hov | exact Hi].
Defined.

(** C5. Whenever the mode the handle holds after the override step is none of
    the four RGMII variants, the word written back to the RGMII
    configuration register is the value [adin_ext_read] returned with bit 0
    (RGMII enable) cleared and nothing else changed; in particular the RX
    (bit 2) and TX (bit 1) delay-enable bits are those of the value read. *)
Theorem C5_non_rgmii_clears_enable_only {H : Host} {O : PhyEnumOrder H}
    (d : phy_device H) :
  ~ is_rgmii_variant (interface (device (adin_config_rgmii_mode d))) ->
  exists pre r0 raw r1 v,
    events (adin_config_rgmii_mode d) =
      pre ++ ext_rmw_events ADIN1300_GE_RGMII_CFG_REG r0 raw r1 v
               (result (adin_config_rgmii_mode d)) /\
    forallb is_printk pre = true /\
    v = Z.clearbit (to_u16 raw) 0 /\
    Z.testbit v 0 = false /\
    Z.testbit v 1 = Z.testbit (to_u16 raw) 1 /\
    Z.testbit v 2 = Z.testbit (to_u16 raw) 2.
Proof.
  destruct (adin_config_rgmii_mode_run d)
    as (ov & pre & r0 & raw & r1 & r & b & _ & Hpre & Hrun).
  rewrite Hrun. cbn [device result events fst snd interface].
  set (m := if 0 <=? ov then ov else interface d).
  intros Hm. apply rgmii_range_not_variant in Hm.
  exists pre, r0, raw, r1, (rgmii_cfg_word m (to_u16 raw)).
  split; [reflexivity|]. split; [exact Hpre|].
  destruct (rgmii_cfg_word_spec m (to_u16 raw) (to_u16_range raw)) as [_ Hbits].
  rewrite !Hbits by lia. unfold rgmii_cfg_bit. rewrite Hm. cbn.
  split; [|auto].
  unfold rgmii_cfg_word. rewrite Hm. cbn [negb].
  destruct (int_and_not_u16 (to_u16 raw) ADIN1300_GE_RGMII_EN (to_u16_range raw))
    as [-> _].
  unfold Z.clearbit. now rewrite Z.ldiff_land.
Qed.

Lemma C5_non_rgmii_clears_enable_only_witness :
  ~ is_rgmii_variant
      (interface (device (adin_config_rgmii_mode
                            (imx_phydev 4 None false 0x0e07 [])))) /\
  exists pre r0 raw r1 v,
    events (adin_config_rgmii_mode (imx_phydev 4 None false 0x0e07 [])) =
      pre ++ ext_rmw_events ADIN1300_GE_RGMII_CFG_REG r0 raw r1 v 0 /\
    v = Z.clearbit (to_u16 raw) 0.
Proof.
  assert (Hv : ~ is_rgmii_variant
    (interface (device (adin_config_rgmii_mode
                          (imx_phydev 4 None false 0x0e07 []))))).
  { vm_compute. intros [E|[E|[E|E]]]; discriminate E. }
  split; [exact Hv|].
  destruct (C5_non_rgmii_clears_enable_only (imx_phydev 4 None false 0x0e07 []) Hv)
    as (pre & r0 & raw & r1 & v & Hev & _ & Hc & _).
  exists pre, r0, raw, r1, v. split; [exact Hev | exact Hc].
Defined.

(** C6. When the boolean property "adi,clk_rcvr_125_en" is unset,
    [adin_set_clock_config] returns 0, leaves the device as it was and
    performs no bus access (it produces no event at all). *)
Theorem C6_clock_step_skipped {H : Host} (d : phy_device H) :
  of_property_read_bool (of_node d) prop_clk_rcvr_125_en = false ->
  adin_set_clock_config d = (0, d, []).
Proof. apply adin_set_clock_config_off. Qed.

Lemma C6_clock_step_skipped_witness :
  adin_set_clock_config (imx_phydev 9 None false 0x0e07 []) =
  (0, imx_phydev 9 None false 0x0e07 [], []).
Proof.
  apply (C6_clock_step_skipped (imx_phydev 9 None false 0x0e07 [])).
  reflexivity.
Defined.

(** C7, as the code has it. When the property "adi,clk_rcvr_125_en" is set,
    [adin_set_clock_config] returns the status of its last bus access, the
    write of the data register, whatever the read returned: the value read
    is reduced to 16 bits, bit 5 is set in it and the result is written; the
    outcome of the read is not part of the value returned. *)
Theorem C7_clock_returns_write_status {H : Host} (d : phy_device H) :
  of_property_read_bool (of_node d) prop_clk_rcvr_125_en = true ->
  exists r0 raw r1 b,
    adin_set_clock_config d =
    (result (adin_set_clock_config d), set_bus b d,
     EvPrintk ("adin_set_clock_config: Enabling 125 MHz clock out" ++ nl)%string ::
     ext_rmw_events ADIN1300_GE_CLK_CFG r0 raw r1
       (Z.lor (to_u16 raw) ADIN1300_GE_CLK_RCVR_125_EN)
       (result (adin_set_clock_config d))).
Proof.
  intros Hon.
  destruct (adin_set_clock_config_on d Hon) as (r0 & raw & r1 & r & b & E).
  exists r0, raw, r1, b. rewrite E. reflexivity.
Qed.

Lemma C7_clock_returns_write_status_witness :
  exists r0 raw r1 b,
    adin_set_clock_config (imx_phydev 9 None true 0x0e00 [0; -5]) =
    (0, set_bus b (imx_phydev 9 None true 0x0e00 [0; -5]),
     EvPrintk ("adin_set_clock_config: Enabling 125 MHz clock out" ++ nl)%string ::
     ext_rmw_events ADIN1300_GE_CLK_CFG r0 raw r1
       (Z.lor (to_u16 raw) ADIN1300_GE_CLK_RCVR_125_EN) 0).
Proof.
  apply (C7_clock_returns_write_status (imx_phydev 9 None true 0x0e00 [0; -5])).
  reflexivity.
Defined.

(** C7, as stated, fails. On a bus whose clock-register read fails with -5
    and whose writes succeed the clock step returns 0; on a bus whose final
    write fails with -5 it returns -5. *)
Lemma C7_read_error_not_returned :
  ~ clock_errors_returned_alike imx_host.
Proof.
  intros Hc.
  specialize (Hc (imx_phydev 9 None true 0x0e00 [0; -5])
                 (imx_phydev 9 None true 0x0e00 [0; 0; 0; -5])
                 (-5) 0x0e22).
  assert (E : result (adin_set_clock_config (imx_phydev 9 None true 0x0e00 [0; -5])) =
              result (adin_set_clock_config
                        (imx_phydev 9 None true 0x0e00 [0; 0; 0; -5]))).
  { apply Hc.
    - lia.
    - reflexivity.
    - reflexivity.
    - vm_compute. do 2 right. left. reflexivity.
    - vm_compute. do 4 right. left. reflexivity. }
  vm_compute in E. discriminate E.
Qed.

(** C8. In every run of [adin_config_rgmii_mode] the override lookup comes
    first and touches no register; the mode of the handle when the function
    returns is the override if the lookup gave one (a value that is not
    negative) and the prior mode otherwise; and the word written to the RGMII
    configuration register is computed from that mode and the value read.
    When the lookup gives a mode, the run is the same whatever mode the
    handle held before. *)
Theorem C8_write_uses_resolved_mode {H : Host} (d : phy_device H) :
  exists ov pre r0 raw r1 b,
    adin_get_phy_mode_override d = (ov, d, pre) /\
    forallb is_printk pre = true /\
    device (adin_config_rgmii_mode d) =
      mk_phy_device (if 0 <=? ov then ov else interface d) (of_node d) b /\
    events (adin_config_rgmii_mode d) =
      pre ++
      ext_rmw_events ADIN1300_GE_RGMII_CFG_REG r0 raw r1
        (rgmii_cfg_word (interface (device (adin_config_rgmii_mode d)))
           (to_u16 raw))
        (result (adin_config_rgmii_mode d)) /\
    (forall n, 0 <= n ->
       Z.testbit (rgmii_cfg_word (interface (device (adin_config_rgmii_mode d)))
                    (to_u16 raw)) n =
       rgmii_cfg_bit (interface (device (adin_config_rgmii_mode d)))
         (to_u16 raw) n) /\
    (0 <= ov ->
     forall prior,
       adin_config_rgmii_mode (set_interface prior d) = adin_config_rgmii_mode d).
Proof.
  destruct (adin_config_rgmii_mode_run d)
    as (ov & pre & r0 & raw & r1 & r & b & Hov & Hpre & Hrun).
  exists ov, pre, r0, raw, r1, b.
  split; [exact Hov|]. split; [exact Hpre|].
  rewrite Hrun. cbn [device result events fst snd interface].
  split; [reflexivity|]. split; [reflexivity|]. split.
  { apply rgmii_cfg_word_spec, to_u16_range. }
  intros Hok prior. rewrite <- Hrun.
  destruct (adin_get_phy_mode_override_run d) as (ov' & pre' & _ & Hany).
  pose proof (Hany (interface d) (bus d)) as Hd.
  rewrite <- phy_device_eta, Hov in Hd. injection Hd as <- <-.
  pose proof (Hany prior (bus d)) as Hp.
  change (mk_phy_device prior (of_node d) (bus d)) with (set_interface prior d) in Hp.
  unfold adin_config_rgmii_mode, bind. rewrite Hov, Hp.
  replace (0 <=? ov) with true by (symmetry; apply Z.leb_le; lia).
  reflexivity.
Qed.

(** C9. [adin_ext_read] returns a value between 0 and 65535 on every device
    and every bus, also when [phy_read] returned a negative error code.  So
    the branch [reg < 0] of [adin_config_rgmii_mode] is never taken: every
    run ends with the write of the data register and returns the status of
    that write, and the word written carries in its bits 3 to 15 the bits of
    whatever [phy_read] returned, reduced to 16 bits. *)
Theorem C9_read_error_masked {H : Host} :
  (forall (regnum : Z) (d : phy_device H),
     0 <= result (adin_ext_read regnum d) < 2 ^ 16 /\
     exists r0 raw,
       events (adin_ext_read regnum d) =
         [EvWrite ADIN1300_MII_EXT_REG_PTR (to_u16 regnum) r0;
          EvRead ADIN1300_MII_EXT_REG_DATA raw] /\
       result (adin_ext_read regnum d) = raw mod 2 ^ 16) /\
  (forall d : phy_device H,
     exists pre r0 raw r1 v,
       events (adin_config_rgmii_mode d) =
         pre ++ ext_rmw_events ADIN1300_GE_RGMII_CFG_REG r0 raw r1 v
                  (result (adin_config_rgmii_mode d)) /\
       forallb is_printk pre = true /\
       0 <= v < 2 ^ 16 /\
       forall n, 3 <= n -> Z.testbit v n = Z.testbit (raw mod 2 ^ 16) n).
Proof.
  split.
  - intros regnum d.
    destruct (adin_ext_read_run regnum d) as (r0 & raw & b & ->).
    cbn [result events fst snd]. split; [apply to_u16_range|].
    now exists r0, raw.
  - intros d.
    destruct (adin_config_rgmii_mode_run d)
      as (ov & pre & r0 & raw & r1 & r & b & _ & Hpre & ->).
    cbn [result events fst snd].
    set (m := if 0 <=? ov then ov else interface d).
    exists pre, r0, raw, r1, (rgmii_cfg_word m (to_u16 raw)).
    split; [reflexivity|]. split; [exact Hpre|].
    destruct (rgmii_cfg_word_spec m (to_u16 raw) (to_u16_range raw)) as [Hr Hbits].
    split; [exact Hr|].
    intros n Hn. rewrite Hbits by lia. unfold rgmii_cfg_bit.
    replace (n =? 0) with false by (symmetry; apply Z.eqb_neq; lia).
    replace (n =? 1) with false by (symmetry; apply Z.eqb_neq; lia).
    replace (n =? 2) with false by (symmetry; apply Z.eqb_neq; lia).
    now destruct ((PHY_INTERFACE_MODE_RGMII <=? m) &&
                  (m <=? PHY_INTERFACE_MODE_RGMII_TXID))%bool.
Qed.

(** C10. The lookup scans the whole mode table.  When the property names an
    entry [i] of the table that is none of the four RGMII variants, the
    lookup returns [i], the handle's interface mode becomes [i], and the word
    then written to the RGMII configuration register has the enable bit
    (bit 0) cleared. *)
Theorem C10_override_to_non_rgmii {H : Host} {O : PhyEnumOrder H}
    (d : phy_device H) (err i : Z) (s : string) :
  of_property_read_string (of_node d) prop_phy_mode_override = (err, s) ->
  0 <= err ->
  0 <= i < PHY_INTERFACE_MODE_MAX ->
  ~ is_rgmii_variant i ->
  strcasecmp s (phy_modes i) = 0 ->
  (forall k, 0 <= k < i -> strcasecmp s (phy_modes k) <> 0) ->
  result (adin_get_phy_mode_override d) = i /\
  interface (device (adin_config_rgmii_mode d)) = i /\
  exists r0 raw r1 v,
    events (adin_config_rgmii_mode d) =
      ext_rmw_events ADIN1300_GE_RGMII_CFG_REG r0 raw r1 v
        (result (adin_config_rgmii_mode d)) /\
    Z.testbit v 0 = false.
Proof.
  intros Hs He Hi Hnv Hm Hf.
  pose proof (override_first_match d err i s Hs He Hi Hm Hf) as Hov.
  destruct (adin_config_rgmii_mode_run d)
    as (ov & pre & r0 & raw & r1 & r & b & Hov' & _ & Hrun).
  rewrite Hov in Hov'. injection Hov' as <- <-.
  replace (0 <=? i) with true in Hrun by (symmetry; apply Z.leb_le; lia).
  rewrite Hov, Hrun. cbn [device result events fst snd interface app].
  split; [reflexivity|]. split; [reflexivity|].
  exists r0, raw, r1, (rgmii_cfg_word i (to_u16 raw)).
  split; [reflexivity|].
  destruct (rgmii_cfg_word_spec i (to_u16 raw) (to_u16_range raw)) as [_ Hbits].
  rewrite Hbits by lia. unfold rgmii_cfg_bit.
  apply rgmii_range_not_variant in Hnv. now rewrite Hnv.
Qed.

Lemma C10_override_to_non_rgmii_witness :
  result (adin_get_phy_mode_override
            (imx_phydev 9 (Some "SGMII") false 0x0e07 [])) = 4 /\
  interface (device (adin_config_rgmii_mode
                       (imx_phydev 9 (Some "SGMII") false 0x0e07 []))) = 4 /\
  exists r0 raw r1 v,
    events (adin_config_rgmii_mode (imx_phydev 9 (Some "SGMII") false 0x0e07 [])) =
      ext_rmw_events ADIN1300_GE_RGMII_CFG_REG r0 raw r1 v 0 /\
    Z.testbit v 0 = false.
Proof.
  apply (C10_override_to_non_rgmii
           (imx_phydev 9 (Some "SGMII") false 0x0e07 []) 0 4 "SGMII").
  - reflexivity.
  - lia.
  - vm_compute. split; [discriminate | reflexivity].
  - vm_compute. intros [E|[E|[E|E]]]; discriminate E.
  - vm_compute. reflexivity.
  - apply (no_match_below "SGMII" 4). vm_compute. reflexivity.
Defined.

(** ** Further properties of the driver *)

(** X1. With the enumerators in the header's order, the range test of
    [adin_phy_interface_is_rgmii] holds exactly for the four RGMII modes. *)
Theorem adin_phy_interface_is_rgmii_iff {H : Host} {O : PhyEnumOrder H}
    (d : phy_device H) :
  adin_phy_interface_is_rgmii d = true <-> is_rgmii_variant (interface d).
Proof. unfold adin_phy_interface_is_rgmii. apply rgmii_range_variant. Qed.

Lemma adin_phy_interface_is_rgmii_iff_witness :
  adin_phy_interface_is_rgmii (imx_phydev 12 None false 0 []) = false /\
  ~ is_rgmii_variant 12.
Proof.
  assert (E : adin_phy_interface_is_rgmii (imx_phydev 12 None false 0 []) = false)
    by reflexivity.
  split; [exact E|].
  intros Hv.
  apply (adin_phy_interface_is_rgmii_iff (imx_phydev 12 None false 0 [])) in Hv.
  rewrite E in Hv. discriminate Hv.
Defined.

(** X2. When the property "adi,phy-mode-override" cannot be read (negative
    status), the lookup returns that status without a log line, and the
    status goes no further: the handle keeps its mode and
    [adin_config_rgmii_mode] consists of the read-modify-write of the RGMII
    configuration register alone, whose write status it returns. *)
Theorem override_absent_skipped {H : Host} (d : phy_device H)
    (err : Z) (s : string) :
  of_property_read_string (of_node d) prop_phy_mode_override = (err, s) ->
  err < 0 ->
  adin_get_phy_mode_override d = (err, d, []) /\
  interface (device (adin_config_rgmii_mode d)) = interface d /\
  interface (device (adin1300_phy_fixup d)) = interface d /\
  exists r0 raw r1,
    events (adin_config_rgmii_mode d) =
      ext_rmw_events ADIN1300_GE_RGMII_CFG_REG r0 raw r1
        (rgmii_cfg_word (interface d) (to_u16 raw))
        (result (adin_config_rgmii_mode d)).
Proof.
  intros Hs He.
  assert (Hov : adin_get_phy_mode_override d = (err, d, [])).
  { unfold adin_get_phy_mode_override, bind, get, ret. rewrite Hs.
    replace (err <? 0) with true by (symmetry; apply Z.ltb_lt; lia).
    reflexivity. }
  destruct (adin_config_rgmii_mode_run d)
    as (ov & pre & r0 & raw & r1 & r & b & Hov' & _ & Hrun).
  rewrite Hov in Hov'. injection Hov' as <- <-.
  replace (0 <=? err) with false in Hrun by (symmetry; apply Z.leb_gt; lia).
  split; [exact Hov|].
  rewrite adin1300_phy_fixup_interface, Hrun.
  cbn [device result events fst snd interface app].
  split; [reflexivity|]. split; [reflexivity|].
  now exists r0, raw, r1.
Qed.

Lemma override_absent_skipped_witness :
  adin_get_phy_mode_override (imx_phydev 9 None false 0x0e00 []) =
    (-22, imx_phydev 9 None false 0x0e00 [], []) /\
  interface (device (adin1300_phy_fixup (imx_phydev 9 None false 0x0e00 []))) = 9.
Proof.
  destruct (override_absent_skipped (imx_phydev 9 None false 0x0e00 []) (-22) "")
    as (Hov & _ & Hi & _).
  - reflexivity.
  - lia.
  - split; [exact Hov | exact Hi].
Defined.

(** The lookup returns a negative value or an index of the table. *)
Lemma override_result_in_table_aux {H : Host} (d : phy_device H)
    (err : Z) (s : string) :
  of_property_read_string (of_node d) prop_phy_mode_override = (err, s) ->
  0 < ENODEV ->
  device (adin_get_phy_mode_override d) = d /\
  (result (adin_get_phy_mode_override d) < 0 \/
   0 <= err /\
   0 <= result (adin_get_phy_mode_override d) < PHY_INTERFACE_MODE_MAX /\
   strcasecmp s (phy_modes (result (adin_get_phy_mode_override d))) = 0).
Proof.
  intros Hs Hno.
  unfold adin_get_phy_mode_override, bind, get, ret, printk. rewrite Hs.
  destruct (Z.ltb_spec err 0) as [Hneg|Hpos].
  - cbn. split; [reflexivity|]. left. exact Hneg.
  - destruct (phy_mode_scan s 0 (Z.to_nat PHY_INTERFACE_MODE_MAX)) as [i|] eqn:Hscan.
    + cbn. split; [reflexivity|]. right.
      destruct (phy_mode_scan_some _ _ _ _ Hscan) as (Hr & Hm & _).
      split; [exact Hpos|]. split; [lia | exact Hm].
    + cbn. split; [reflexivity|]. left. lia.
Qed.

(** X3. The value [adin_get_phy_mode_override] returns is either negative or
    an index of the mode table, between 0 and PHY_INTERFACE_MODE_MAX - 1,
    whose name compares equal to the property's string; the lookup never
    changes the device. *)
Theorem override_result_in_table {H : Host} (d : phy_device H)
    (err : Z) (s : string) :
  of_property_read_string (of_node d) prop_phy_mode_override = (err, s) ->
  0 < ENODEV ->
  device (adin_get_phy_mode_override d) = d /\
  (result (adin_get_phy_mode_override d) < 0 \/
   0 <= err /\
   0 <= result (adin_get_phy_mode_override d) < PHY_INTERFACE_MODE_MAX /\
   strcasecmp s (phy_modes (result (adin_get_phy_mode_override d))) = 0).
Proof. apply override_result_in_table_aux. Qed.

Lemma override_result_in_table_witness :
  device (adin_get_phy_mode_override (imx_phydev 2 (Some "Rgmii-TxId") false 0 [])) =
    imx_phydev 2 (Some "Rgmii-TxId") false 0 [] /\
  (result (adin_get_phy_mode_override
             (imx_phydev 2 (Some "Rgmii-TxId") false 0 [])) < 0 \/
   0 <= 0 /\
   0 <= result (adin_get_phy_mode_override
                  (imx_phydev 2 (Some "Rgmii-TxId") false 0 [])) < 24 /\
   strcasecmp "Rgmii-TxId"
     (phy_modes (result (adin_get_phy_mode_override
                           (imx_phydev 2 (Some "Rgmii-TxId") false 0 [])))) = 0).
Proof.
  apply (override_result_in_table
           (imx_phydev 2 (Some "Rgmii-TxId") false 0 []) 0 "Rgmii-TxId").
  - reflexivity.
  - vm_compute. reflexivity.
Defined.

(** X4. The handler leaves the device-tree node of the handle alone, and the
    mode it leaves in the handle is either the mode the handle had or an
    index of the mode table whose name compares equal to the override
    string. *)
Theorem fixup_mode_prior_or_table {H : Host} (d : phy_device H)
    (err : Z) (s : string) :
  of_property_read_string (of_node d) prop_phy_mode_override = (err, s) ->
  0 < ENODEV ->
  of_node (device (adin1300_phy_fixup d)) = of_node d /\
  (interface (device (adin1300_phy_fixup d)) = interface d \/
   0 <= interface (device (adin1300_phy_fixup d)) < PHY_INTERFACE_MODE_MAX /\
   strcasecmp s (phy_modes (interface (device (adin1300_phy_fixup d)))) = 0).
Proof.
  intros Hs Hno.
  destruct (override_result_in_table_aux d err s Hs Hno) as [Hd Hr].
  destruct (adin_config_rgmii_mode_run d)
    as (ov & pre & r0 & raw & r1 & r & b & Hov & _ & Hrun).
  rewrite Hov in Hd, Hr. cbn [result device fst snd] in Hr.
  split.
  - rewrite adin1300_phy_fixup_run. cbn zeta.
    assert (Hc : of_node (device (adin_config_rgmii_mode d)) = of_node d)
      by now rewrite Hrun.
    destruct (result (adin_config_rgmii_mode d) <? 0); [exact Hc|].
    destruct (result (adin_set_clock_config (device (adin_config_rgmii_mode d))) <? 0);
      cbn [device fst snd];
      now rewrite (proj2 (adin_set_clock_config_device _)).
  - rewrite adin1300_phy_fixup_interface, Hrun. cbn [device fst snd interface].
    destruct Hr as [Hneg|(_ & Hin & Hm)].
    + left. replace (0 <=? ov) with false by (symmetry; apply Z.leb_gt; lia).
      reflexivity.
    + right. replace (0 <=? ov) with true by (symmetry; apply Z.leb_le; lia).
      split; [exact Hin | exact Hm].
Qed.

Lemma fixup_mode_prior_or_table_witness :
  of_node (device (adin1300_phy_fixup (imx_phydev 2 (Some "MOCA") true 0x0e07 []))) =
    imx_node (Some "MOCA") true /\
  interface (device (adin1300_phy_fixup (imx_phydev 2 (Some "MOCA") true 0x0e07 []))) = 15.
Proof.
  destruct (fixup_mode_prior_or_table
              (imx_phydev 2 (Some "MOCA") true 0x0e07 []) 0 "MOCA")
    as [Hn _].
  - reflexivity.
  - vm_compute. reflexivity.
  - split; [exact Hn | reflexivity].
Defined.

(** X5. The lookup logs its diagnostic exactly when the property was read
    (status not negative) and no name of the table compares equal to its
    string; it logs nothing else. *)
Theorem override_diagnostic_iff {H : Host} (d : phy_device H)
    (err : Z) (s : string) :
  of_property_read_string (of_node d) prop_phy_mode_override = (err, s) ->
  (events (adin_get_phy_mode_override d) = [EvPrintk (override_diagnostic s)] <->
   0 <= err /\
   forall k, 0 <= k < PHY_INTERFACE_MODE_MAX -> strcasecmp s (phy_modes k) <> 0) /\
  (events (adin_get_phy_mode_override d) = [] \/
   events (adin_get_phy_mode_override d) = [EvPrintk (override_diagnostic s)]).
Proof.
  intros Hs.
  unfold adin_get_phy_mode_override, bind, get, ret, printk. rewrite Hs.
  destruct (Z.ltb_spec err 0) as [Hneg|Hpos].
  - cbn. split; [|now left].
    split; [discriminate | intros [He _]; lia].
  - destruct (phy_mode_scan s 0 (Z.to_nat PHY_INTERFACE_MODE_MAX)) as [i|] eqn:Hscan.
    + cbn. split; [|now left].
      split; [discriminate|]. intros [_ Hf]. exfalso.
      destruct (phy_mode_scan_some _ _ _ _ Hscan) as (Hr & Hm & _).
      apply (Hf i); [lia | exact Hm].
    + cbn. split; [|now right].
      split; [|reflexivity]. intros _. split; [exact Hpos|].
      intros k Hk. apply (phy_mode_scan_none_inv _ _ _ Hscan). lia.
Qed.

Lemma override_diagnostic_iff_witness :
  events (adin_get_phy_mode_override (imx_phydev 9 (Some "rgmii_id") false 0 [])) =
    [EvPrintk (override_diagnostic "rgmii_id")] /\
  forall k, 0 <= k < 24 -> Imx.strcasecmp "rgmii_id" (Imx.phy_modes k) <> 0.
Proof.
  destruct (override_diagnostic_iff
              (imx_phydev 9 (Some "rgmii_id") false 0 []) 0 "rgmii_id")
    as [[Hfwd _] _].
  - reflexivity.
  - assert (E : events (adin_get_phy_mode_override
                          (imx_phydev 9 (Some "rgmii_id") false 0 [])) =
                [EvPrintk (override_diagnostic "rgmii_id")]) by reflexivity.
    split; [exact E | exact (proj2 (Hfwd E))].
Defined.

(** X6. Programming the RGMII configuration word is idempotent: computed
    again from its own result for the same mode, the word does not change. *)
Theorem rgmii_cfg_word_idempotent {H : Host} (m reg : Z) :
  0 <= reg < 2 ^ 16 ->
  rgmii_cfg_word m (rgmii_cfg_word m reg) = rgmii_cfg_word m reg.
Proof.
  intros Hr.
  destruct (rgmii_cfg_word_spec m reg Hr) as [Hw Hbits].
  destruct (rgmii_cfg_word_spec m (rgmii_cfg_word m reg) Hw) as [_ Hbits2].
  apply Z.bits_inj'. intros n Hn.
  rewrite Hbits2 by lia. unfold rgmii_cfg_bit at 1.
  rewrite !Hbits by lia. unfold rgmii_cfg_bit.
  destruct ((PHY_INTERFACE_MODE_RGMII <=? m) &&
            (m <=? PHY_INTERFACE_MODE_RGMII_TXID))%bool;
    destruct (n =? 0); destruct (n =? 1); destruct (n =? 2); reflexivity.
Qed.

Lemma rgmii_cfg_word_idempotent_witness :
  rgmii_cfg_word (H := imx_host) 10 (rgmii_cfg_word (H := imx_host) 10 0x0e02) =
  rgmii_cfg_word (H := imx_host) 10 0x0e02.
Proof.
  apply (rgmii_cfg_word_idempotent (H := imx_host) 10 0x0e02). lia.
Defined.

(** X7. The word written tells the RGMII modes apart: two of the four RGMII
    modes that yield the same word, from whatever values read, are the same
    mode. *)
Theorem rgmii_cfg_word_determines_variant {H : Host} {O : PhyEnumOrder H}
    (m1 m2 reg1 reg2 : Z) :
  0 <= reg1 < 2 ^ 16 -> 0 <= reg2 < 2 ^ 16 ->
  is_rgmii_variant m1 -> is_rgmii_variant m2 ->
  rgmii_cfg_word m1 reg1 = rgmii_cfg_word m2 reg2 ->
  m1 = m2.
Proof.
  intros Hr1 Hr2 Hv1 Hv2 Heq.
  destruct (rgmii_cfg_word_spec m1 reg1 Hr1) as [_ Hb1].
  destruct (rgmii_cfg_word_spec m2 reg2 Hr2) as [_ Hb2].
  pose proof (Hb1 1 ltac:(lia)) as B11. pose proof (Hb1 2 ltac:(lia)) as B12.
  pose proof (Hb2 1 ltac:(lia)) as B21. pose proof (Hb2 2 ltac:(lia)) as B22.
  rewrite Heq in B11, B12. rewrite B21 in B11. rewrite B22 in B12.
  clear B21 B22 Hb1 Hb2 Heq.
  unfold rgmii_cfg_bit in B11, B12.
  rewrite (proj2 (rgmii_range_variant m1) Hv1) in B11, B12.
  rewrite (proj2 (rgmii_range_variant m2) Hv2) in B11, B12.
  cbn in B11, B12.
  destruct O as [E1 E2 E3]. unfold is_rgmii_variant in Hv1, Hv2.
  repeat match goal with
         | Hb : context [?a =? ?b] |- _ => destruct (Z.eqb_spec a b)
         end; cbn in B11, B12; try discriminate; lia.
Qed.

Lemma rgmii_cfg_word_determines_variant_witness :
  rgmii_cfg_word (H := imx_host) 9 0x0e00 <> rgmii_cfg_word (H := imx_host) 10 0x0e07.
Proof.
  intros Heq.
  assert (E : 9 = 10).
  { apply (rgmii_cfg_word_determines_variant (H := imx_host) 9 10 0x0e00 0x0e07).
    - lia.
    - lia.
    - right. left. reflexivity.
    - right. right. left. reflexivity.
    - exact Heq. }
  discriminate E.
Defined.

(** X8. When the property "adi,clk_rcvr_125_en" is set, the word the clock
    step writes to the clock configuration register has bit 5 set and every
    other bit as in the value read (reduced to 16 bits); it fits in 16
    bits. *)
Theorem clock_word_sets_bit5_only {H : Host} (d : phy_device H) :
  of_property_read_bool (of_node d) prop_clk_rcvr_125_en = true ->
  exists r0 raw r1 v,
    events (adin_set_clock_config d) =
      EvPrintk ("adin_set_clock_config: Enabling 125 MHz clock out" ++ nl)%string ::
      ext_rmw_events ADIN1300_GE_CLK_CFG r0 raw r1 v
        (result (adin_set_clock_config d)) /\
    0 <= v < 2 ^ 16 /\
    forall n, 0 <= n ->
      Z.testbit v n = ((n =? 5) || Z.testbit (raw mod 2 ^ 16) n)%bool.
Proof.
  intros Hon.
  destruct (adin_set_clock_config_on d Hon) as (r0 & raw & r1 & r & b & E).
  exists r0, raw, r1, (Z.lor (to_u16 raw) ADIN1300_GE_CLK_RCVR_125_EN).
  rewrite E. cbn [events result fst snd].
  split; [reflexivity|]. split.
  - apply lor_u16; [apply to_u16_range | apply (BIT_u16 5); lia].
  - intros n Hn. unfold ADIN1300_GE_CLK_RCVR_125_EN.
    rewrite testbit_lor_BIT by lia. apply orb_comm.
Qed.

Lemma clock_word_sets_bit5_only_witness :
  exists r0 raw r1 v,
    events (adin_set_clock_config (imx_phydev 9 None true 0x0e00 [])) =
      EvPrintk ("adin_set_clock_config: Enabling 125 MHz clock out" ++ nl)%string ::
      ext_rmw_events ADIN1300_GE_CLK_CFG r0 raw r1 v 0 /\
    Z.testbit v 5 = true.
Proof.
  destruct (clock_word_sets_bit5_only (imx_phydev 9 None true 0x0e00 []))
    as (r0 & raw & r1 & v & Hev & _ & Hb).
  - reflexivity.
  - exists r0, raw, r1, v. split; [exact Hev|].
    rewrite Hb by lia. reflexivity.
Defined.

(** Log lines are no bus accesses. *)
Lemma printk_only (pre : list event) (regnum : Z) :
  forallb is_printk pre = true ->
  forallb adin_access pre = true /\
  filter is_bus_access pre = [] /\
  existsb (points_at regnum) pre = false.
Proof.
  induction pre as [|e pre IH]; cbn; [auto|].
  destruct e; cbn; try discriminate. exact IH.
Qed.

(** The events of the RGMII step and of the clock step, counted and
    classified. *)
Lemma adin_config_rgmii_mode_accesses {H : Host} (d : phy_device H) :
  forallb adin_access (events (adin_config_rgmii_mode d)) = true /\
  List.length (filter is_bus_access (events (adin_config_rgmii_mode d))) = 4%nat /\
  existsb (points_at ADIN1300_GE_CLK_CFG) (events (adin_config_rgmii_mode d)) = false.
Proof.
  destruct (adin_config_rgmii_mode_run d)
    as (ov & pre & r0 & raw & r1 & r & b & _ & Hpre & ->).
  cbn [events snd].
  destruct (printk_only pre ADIN1300_GE_CLK_CFG Hpre) as (Ha & Hf & He).
  rewrite forallb_app, filter_app, existsb_app, Ha, Hf, He.
  repeat split.
Qed.

Lemma adin_set_clock_config_accesses {H : Host} (d : phy_device H) :
  forallb adin_access (events (adin_set_clock_config d)) = true /\
  List.length (filter is_bus_access (events (adin_set_clock_config d))) =
    (if of_property_read_bool (of_node d) prop_clk_rcvr_125_en then 4 else 0)%nat.
Proof.
  destruct (of_property_read_bool (of_node d) prop_clk_rcvr_125_en) eqn:E.
  - destruct (adin_set_clock_config_on d E) as (r0 & raw & r1 & r & b & ->).
    split; reflexivity.
  - rewrite (adin_set_clock_config_off d E). split; reflexivity.
Qed.

(** X9. The handler returns 0 or a negative value, also when a bus write
    reports a positive status. *)
Theorem fixup_result_nonpos {H : Host} (d : phy_device H) :
  result (adin1300_phy_fixup d) <= 0.
Proof.
  rewrite adin1300_phy_fixup_run. cbn zeta.
  destruct (Z.ltb_spec (result (adin_config_rgmii_mode d)) 0) as [Hc|Hc]; [lia|].
  destruct (Z.ltb_spec
              (result (adin_set_clock_config (device (adin_config_rgmii_mode d)))) 0)
    as [Hk|Hk]; cbn [result fst]; lia.
Qed.

(** X10. When the write of the RGMII configuration register fails (the RGMII
    step returns a negative value), the handler stops there: its outcome is
    that of the RGMII step, it returns that value, and the clock
    configuration register is never addressed. *)
Theorem fixup_aborts_on_rgmii_write_failure {H : Host} (d : phy_device H) :
  result (adin_config_rgmii_mode d) < 0 ->
  adin1300_phy_fixup d = adin_config_rgmii_mode d /\
  existsb (points_at ADIN1300_GE_CLK_CFG) (events (adin1300_phy_fixup d)) = false.
Proof.
  intros Hneg.
  assert (E : adin1300_phy_fixup d = adin_config_rgmii_mode d).
  { rewrite adin1300_phy_fixup_run. cbn zeta.
    replace (result (adin_config_rgmii_mode d) <? 0) with true
      by (symmetry; apply Z.ltb_lt; lia).
    reflexivity. }
  split; [exact E|]. rewrite E. apply adin_config_rgmii_mode_accesses.
Qed.

Lemma fixup_aborts_on_rgmii_write_failure_witness :
  result (adin1300_phy_fixup (imx_phydev 9 None true 0x0e00 [0; 0; 0; -5])) = -5 /\
  existsb (points_at ADIN1300_GE_CLK_CFG)
    (events (adin1300_phy_fixup (imx_phydev 9 None true 0x0e00 [0; 0; 0; -5]))) = false.
Proof.
  destruct (fixup_aborts_on_rgmii_write_failure
              (imx_phydev 9 None true 0x0e00 [0; 0; 0; -5])) as [E Hx].
  - vm_compute. reflexivity.
  - split; [rewrite E; reflexivity | exact Hx].
Defined.

(** X11. The handler returns 0 exactly when neither step returned a negative
    value; it then ends with the log line that names the mode left in the
    handle, after the events of the two steps. *)
Theorem fixup_success_iff {H : Host} (d : phy_device H) :
  (result (adin1300_phy_fixup d) = 0 <->
   0 <= result (adin_config_rgmii_mode d) /\
   0 <= result (adin_set_clock_config (device (adin_config_rgmii_mode d)))) /\
  (result (adin1300_phy_fixup d) = 0 ->
   events (adin1300_phy_fixup d) =
     events (adin_config_rgmii_mode d) ++
     events (adin_set_clock_config (device (adin_config_rgmii_mode d))) ++
     [EvPrintk (mode_line (interface (device (adin1300_phy_fixup d))))]) /\
  (result (adin1300_phy_fixup d) < 0 ->
   events (adin1300_phy_fixup d) = events (adin_config_rgmii_mode d) \/
   events (adin1300_phy_fixup d) =
     events (adin_config_rgmii_mode d) ++
     events (adin_set_clock_config (device (adin_config_rgmii_mode d)))).
Proof.
  rewrite adin1300_phy_fixup_run. cbn zeta.
  destruct (Z.ltb_spec (result (adin_config_rgmii_mode d)) 0) as [Hc|Hc].
  - split; [split; [lia | intros [? _]; lia]|].
    split; [lia | intros _; now left].
  - destruct (Z.ltb_spec
                (result (adin_set_clock_config (device (adin_config_rgmii_mode d)))) 0)
      as [Hk|Hk]; cbn [result device events fst snd].
    + split; [split; [lia | intros [_ ?]; lia]|].
      split; [lia | intros _; now right].
    + split; [split; [intros _; split; assumption | reflexivity]|].
      split; [reflexivity | lia].
Qed.

(** X12. On the bus the handler only reads and writes the data register and
    writes the addresses of the RGMII and clock configuration registers to
    the pointer register.  Every access is made once: four accesses when the
    RGMII step fails or the clock property is unset, eight otherwise. *)
Theorem fixup_bus_accesses {H : Host} (d : phy_device H) :
  forallb adin_access (events (adin1300_phy_fixup d)) = true /\
  List.length (filter is_bus_access (events (adin1300_phy_fixup d))) =
    if (result (adin_config_rgmii_mode d) <? 0) ||
       negb (of_property_read_bool (of_node d) prop_clk_rcvr_125_en)
    then 4%nat else 8%nat.
Proof.
  destruct (adin_config_rgmii_mode_accesses d) as (Ha & Hn & _).
  destruct (adin_set_clock_config_accesses (device (adin_config_rgmii_mode d)))
    as (Hka & Hkn).
  assert (Hnode : of_node (device (adin_config_rgmii_mode d)) = of_node d).
  { destruct (adin_config_rgmii_mode_run d)
      as (ov & pre & r0 & raw & r1 & r & b & _ & _ & ->). reflexivity. }
  rewrite Hnode in Hkn.
  rewrite adin1300_phy_fixup_run. cbn zeta.
  destruct (result (adin_config_rgmii_mode d) <? 0); cbn [orb].
  - split; [exact Ha | exact Hn].
  - destruct (result (adin_set_clock_config (device (adin_config_rgmii_mode d))) <? 0);
      cbn [events snd];
      rewrite ?forallb_app, ?filter_app, ?List.length_app, Ha, Hka, Hn, Hkn;
      (split; [reflexivity|]);
      destruct (of_property_read_bool (of_node d) prop_clk_rcvr_125_en); reflexivity.
Qed.

(** X13. [adin_register_fixup] registers nothing and logs nothing when the
    PHY layer is not built in.  When it is, the registry is left as the one
    call of the host's registration function for the identifier 0x0283bc30
    under the mask 0xffffffff and the handler [adin1300_phy_fixup] returned
    it, and one line is logged exactly when that call returned a status other
    than 0; no bus access is made. *)
Theorem adin_register_fixup_outcome {H : Host} {R : Type}
    (builtin_phylib : bool)
    (phy_register_fixup_for_uid : Z -> Z -> M H Z -> R -> Z * R)
    (registry : R) :
  (builtin_phylib = false ->
   adin_register_fixup builtin_phylib phy_register_fixup_for_uid registry =
   (registry, [])) /\
  (builtin_phylib = true ->
   fst (adin_register_fixup builtin_phylib phy_register_fixup_for_uid registry) =
     snd (phy_register_fixup_for_uid PHY_ID_ADIN1300 (2 ^ 32 - 1)
            adin1300_phy_fixup registry) /\
   (snd (adin_register_fixup builtin_phylib phy_register_fixup_for_uid registry) = [] <->
    fst (phy_register_fixup_for_uid PHY_ID_ADIN1300 (2 ^ 32 - 1)
           adin1300_phy_fixup registry) = 0)) /\
  filter is_bus_access
    (snd (adin_register_fixup builtin_phylib phy_register_fixup_for_uid registry)) = [].
Proof.
  unfold adin_register_fixup.
  change (2 ^ 32 - 1) with 0xffffffff.
  destruct builtin_phylib; cbn [negb].
  - destruct (phy_register_fixup_for_uid PHY_ID_ADIN1300 0xffffffff
                adin1300_phy_fixup registry) as [err reg'].
    cbn [fst snd].
    destruct (Z.eqb_spec err 0) as [E|E]; cbn [negb fst snd].
    + split; [discriminate|]. split; [|reflexivity].
      intros _. split; [reflexivity|]. split; [intros _; exact E | reflexivity].
    + split; [discriminate|]. split; [|reflexivity].
      intros _. split; [reflexivity|]. split; [discriminate | intros E'; contradiction].
  - split; [reflexivity|]. split; [discriminate | reflexivity].
Qed.
